(** * The two-tier analysis cache of [backend/index.js]

    A shallow embedding of the [POST /api/analyze] handler and of
    [analyzeGap] ([backend/services/ai.js]), together with the properties
    of the content-addressed cache that sits in front of the AI call.

    Conventions of the embedding:
    - a JavaScript string is a Rocq [string] read as a sequence of UTF-16
      code units below 256 (the Latin-1 range); [String.length] is then the
      JavaScript [length]; [Utf16] derives the key of a string of any code
      units, and agrees with this on the Latin-1 range;
    - 32-bit words of the digest are [Z] with the wrap-around written out;
    - the handler is a program over the calls it makes (hashing, the
      in-process [Map], the clock, Prisma, the generative model), so that a
      run yields the response, the final state and the list of calls made;
    - console output is not modelled. *)

From Stdlib Require Import ZArith List String Ascii Bool Lia QArith.
From stdpp Require Import base strings gmap.

Set Warnings "-register-all".

Local Open Scope Z_scope.

(** ** JavaScript strings *)

Module JsString.

Definition code (c : ascii) : Z := Z.of_nat (nat_of_ascii c).

Definition of_code (z : Z) : ascii := ascii_of_nat (Z.to_nat z).

(** [WhiteSpace] and [LineTerminator] code units below 256: TAB, LF, VT,
    FF, CR, SP and NBSP. *)
Definition is_white (c : ascii) : bool :=
  let n := code c in
  ((9 <=? n) && (n <=? 13)) || (n =? 32) || (n =? 160).

Fixpoint trimStart (s : string) : string :=
  match s with
  | EmptyString => EmptyString
  | String c s' => if is_white c then trimStart s' else s
  end.

Fixpoint trimEnd (s : string) : string :=
  match s with
  | EmptyString => EmptyString
  | String c s' =>
      match trimEnd s' with
      | EmptyString => if is_white c then EmptyString else String c EmptyString
      | t => String c t
      end
  end.

(** [String.prototype.trim] *)
Definition trim (s : string) : string := trimEnd (trimStart s).

(** Lower-case mapping of one code unit: A-Z, and U+00C0-U+00DE save
    the multiplication sign U+00D7. *)
Definition lower (c : ascii) : ascii :=
  let n := code c in
  if ((65 <=? n) && (n <=? 90))
     || ((192 <=? n) && (n <=? 222) && negb (n =? 215))
  then of_code (n + 32) else c.

(** [String.prototype.toLowerCase] *)
Fixpoint toLowerCase (s : string) : string :=
  match s with
  | EmptyString => EmptyString
  | String c s' => String (lower c) (toLowerCase s')
  end.

Fixpoint startsWith (p s : string) : bool :=
  match p, s with
  | EmptyString, _ => true
  | String a p', String b s' => Ascii.eqb a b && startsWith p' s'
  | String _ _, EmptyString => false
  end.

(** [String.prototype.includes] *)
Fixpoint includes (needle s : string) : bool :=
  startsWith needle s
  || match s with
     | EmptyString => false
     | String _ s' => includes needle s'
     end.

(** [s.slice(0, n)] for [0 <= n] *)
Fixpoint slice0 (n : Z) (s : string) : string :=
  match s with
  | EmptyString => EmptyString
  | String c s' => if 0 <? n then String c (slice0 (n - 1) s') else EmptyString
  end.

Fixpoint drop (n : nat) (s : string) : string :=
  match n, s with
  | S n', String _ s' => drop n' s'
  | _, _ => s
  end.

(** UTF-8 encoding, as [hash.update(string)] applies it. *)
Fixpoint utf8 (s : string) : list Z :=
  match s with
  | EmptyString => []
  | String c s' =>
      let n := code c in
      if n <? 128 then n :: utf8 s'
      else Z.lor 192 (Z.shiftr n 6) :: Z.lor 128 (Z.land n 63) :: utf8 s'
  end.

End JsString.

(** ** SHA-256 (FIPS 180-4), the digest behind [crypto.createHash('sha256')] *)

Module SHA256.

Definition w32 (x : Z) : Z := x mod 2 ^ 32.

Definition rotr (n x : Z) : Z :=
  Z.lor (Z.shiftr x n) (w32 (Z.shiftl x (32 - n))).

Definition Ch (x y z : Z) : Z :=
  Z.lxor (Z.land x y) (Z.land (Z.lnot x) z).

Definition Maj (x y z : Z) : Z :=
  Z.lxor (Z.lxor (Z.land x y) (Z.land x z)) (Z.land y z).

Definition Sigma0 (x : Z) : Z :=
  Z.lxor (Z.lxor (rotr 2 x) (rotr 13 x)) (rotr 22 x).

Definition Sigma1 (x : Z) : Z :=
  Z.lxor (Z.lxor (rotr 6 x) (rotr 11 x)) (rotr 25 x).

Definition sigma0 (x : Z) : Z :=
  Z.lxor (Z.lxor (rotr 7 x) (rotr 18 x)) (Z.shiftr x 3).

Definition sigma1 (x : Z) : Z :=
  Z.lxor (Z.lxor (rotr 17 x) (rotr 19 x)) (Z.shiftr x 10).

(** The first 64 primes. *)
Definition is_prime (n : Z) : bool :=
  forallb (fun d => negb (n mod Z.of_nat d =? 0)) (seq 2 (Z.to_nat n - 2)).

Definition primes : list Z := filter is_prime (map Z.of_nat (seq 2 310)).

(** The integer cube root, one bit at a time from bit [bits - 1] down. *)
Fixpoint cube_root (bits : nat) (n r : Z) : Z :=
  match bits with
  | O => r
  | S b =>
      let c := r + 2 ^ Z.of_nat b in
      if c * c * c <=? n then cube_root b n c else cube_root b n r
  end.

(** The first 32 bits of the fractional part of the cube root, and of the
    square root, of [p]. *)
Definition frac_cbrt (p : Z) : Z := w32 (cube_root 35 (p * 2 ^ 96) 0).

Definition frac_sqrt (p : Z) : Z := w32 (Z.sqrt (p * 2 ^ 64)).

(** The round constants. *)
Definition K : list Z := map frac_cbrt primes.

(** The eight working variables, and the chaining value. *)
Record Regs := mkRegs
  { ra : Z; rb : Z; rc : Z; rd : Z; re : Z; rf : Z; rg : Z; rh : Z }.

(** The initial hash value. *)
Definition H0 : Regs :=
  mkRegs (frac_sqrt 2) (frac_sqrt 3) (frac_sqrt 5) (frac_sqrt 7)
         (frac_sqrt 11) (frac_sqrt 13) (frac_sqrt 17) (frac_sqrt 19).

(** Padding: a 1 bit, zeros up to 56 modulo 64, the bit length on 64 bits. *)
Definition be_bytes (n : nat) (x : Z) : list Z :=
  map (fun i => Z.land (Z.shiftr x (8 * Z.of_nat i)) 255) (rev (seq 0 n)).

Definition pad (msg : list Z) : list Z :=
  let len := Z.of_nat (List.length msg) in
  msg ++ 128 :: repeat 0 (Z.to_nat ((55 - len) mod 64)) ++ be_bytes 8 (8 * len).

Fixpoint words (fuel : nat) (bs : list Z) : list Z :=
  match fuel, bs with
  | S fuel', b0 :: b1 :: b2 :: b3 :: rest =>
      (((b0 * 256 + b1) * 256 + b2) * 256 + b3) :: words fuel' rest
  | _, _ => []
  end.

Fixpoint blocks (fuel : nat) (ws : list Z) : list (list Z) :=
  match fuel, ws with
  | S fuel', _ :: _ => firstn 16 ws :: blocks fuel' (skipn 16 ws)
  | _, _ => []
  end.

(** Message schedule: [win] holds the sixteen most recent words. *)
Definition next_word (win : list Z) : Z :=
  w32 (sigma1 (nth 14 win 0) + nth 9 win 0 + sigma0 (nth 1 win 0) + nth 0 win 0).

Fixpoint schedule (n : nat) (win : list Z) : list Z :=
  match n, win with
  | S n', w0 :: rest => w0 :: schedule n' (rest ++ [next_word win])
  | _, _ => []
  end.

Definition round (r : Regs) (kw : Z * Z) : Regs :=
  let t1 := rh r + Sigma1 (re r) + Ch (re r) (rf r) (rg r) + fst kw + snd kw in
  let t2 := Sigma0 (ra r) + Maj (ra r) (rb r) (rc r) in
  mkRegs (w32 (t1 + t2)) (ra r) (rb r) (rc r)
         (w32 (rd r + t1)) (re r) (rf r) (rg r).

Definition compress (h : Regs) (block : list Z) : Regs :=
  let r := fold_left round (combine K (schedule 64 block)) h in
  mkRegs (w32 (ra h + ra r)) (w32 (rb h + rb r))
         (w32 (rc h + rc r)) (w32 (rd h + rd r))
         (w32 (re h + re r)) (w32 (rf h + rf r))
         (w32 (rg h + rg r)) (w32 (rh h + rh r)).

Definition digest (msg : list Z) : Regs :=
  let bs := pad msg in
  let ws := words (List.length bs) bs in
  fold_left compress (blocks (List.length ws) ws) H0.

Definition hex_digit (n : Z) : ascii :=
  if n <? 10 then JsString.of_code (48 + n) else JsString.of_code (87 + n).

Definition nibble (i : Z) (w : Z) : ascii :=
  hex_digit (Z.land (Z.shiftr w (4 * i)) 15).

Definition hex32 (w : Z) (k : string) : string :=
  String (nibble 7 w) (String (nibble 6 w) (String (nibble 5 w)
  (String (nibble 4 w) (String (nibble 3 w) (String (nibble 2 w)
  (String (nibble 1 w) (String (nibble 0 w) k))))))).

Definition hex (r : Regs) : string :=
  hex32 (ra r) (hex32 (rb r) (hex32 (rc r) (hex32 (rd r)
  (hex32 (re r) (hex32 (rf r) (hex32 (rg r) (hex32 (rh r) EmptyString))))))).

End SHA256.

(** [crypto.createHash('sha256').update(s).digest('hex')] *)
Definition sha256_hex (s : string) : string :=
  SHA256.hex (SHA256.digest (JsString.utf8 s)).


(** ** JavaScript values

    What [express.json()] can put into [req.body]: the values of JSON, and
    [undefined] for an absent property.  A number carries the exact value of
    the double it parsed to. *)

Inductive JsNumber : Type :=
| NaN
| Infinity (negative : bool)
| Finite (q : Q).

Inductive JsVal : Type :=
| JUndefined
| JNull
| JBool (b : bool)
| JNum (n : JsNumber)
| JStr (s : string)
| JArr (items : list JsVal)
| JObj (props : list (string * JsVal)).

Inductive ErrorClass : Type :=
| ErrorC | TypeErrorC | SyntaxErrorC | ZodErrorC | ClientErrorC.

(** A thrown value: its class (for [instanceof]) and its [message]. *)
Record JsError := mkError { err_class : ErrorClass; message : string }.

Inductive Result (A : Type) : Type :=
| Ok (a : A)
| Throw (e : JsError).
Arguments Ok {A} a.
Arguments Throw {A} e.

Module Js.

(** ToBoolean *)
Definition truthy (v : JsVal) : bool :=
  match v with
  | JUndefined | JNull => false
  | JBool b => b
  | JNum NaN => false
  | JNum (Infinity _) => true
  | JNum (Finite q) => negb (Qeq_bool q 0)
  | JStr s => negb (String.eqb s EmptyString)
  | JArr _ | JObj _ => true
  end.

Fixpoint get_own (key : string) (props : list (string * JsVal)) : JsVal :=
  match props with
  | [] => JUndefined
  | (k, v) :: rest => if String.eqb k key then v else get_own key rest
  end.

Definition of_nat (n : nat) : JsVal := JNum (Finite (inject_Z (Z.of_nat n))).

(** [v.length] for a value that is neither [undefined] nor [null]:
    strings and arrays have one, an object has it when it is an own
    property, numbers and booleans inherit none. *)
Definition dot_length (v : JsVal) : JsVal :=
  match v with
  | JStr s => of_nat (String.length s)
  | JArr items => of_nat (List.length items)
  | JObj props => get_own "length" props
  | _ => JUndefined
  end.

(** [n < 50] on numbers *)
Definition num_lt_50 (n : JsNumber) : bool :=
  match n with
  | NaN => false
  | Infinity negative => negative
  | Finite q => if Qlt_le_dec q 50 then true else false
  end.

End Js.

(** ** The data model *)

Record LearningStep := mkStep { title : string; description : string }.

(** What [AnalysisSchema] lets through. *)
Record AiResult := mkAiResult
  { ai_missingSkills : list string;
    ai_learningSteps : list LearningStep;
    ai_interviewQuestions : list string }.

(** An analysis object: a row of the [analysis] table, or the
    [responseData] literal.  [cached] is [None] while the property is
    absent (a row as Prisma returns it). *)
Record Analysis := mkAnalysis
  { id : string;
    createdAt : string;
    resumeHash : string;
    jobDescHash : string;
    missingSkills : list string;
    learningSteps : list LearningStep;
    interviewQuestions : list string;
    cached : option bool }.

(** [{ ...a, cached: b }] *)
Definition with_cached (a : Analysis) (b : bool) : Analysis :=
  mkAnalysis (id a) (createdAt a) (resumeHash a) (jobDescHash a)
             (missingSkills a) (learningSteps a) (interviewQuestions a) (Some b).

(** The [data] argument of [prisma.analysis.create]. *)
Record CreateData := mkCreateData
  { cd_resumeHash : string;
    cd_jobDescHash : string;
    cd_missingSkills : list string;
    cd_learningSteps : list LearningStep;
    cd_interviewQuestions : list string }.

(** A value of [memoryCache]: [{ data, timestamp }]. *)
Record MemEntry := mkMemEntry { data : Analysis; timestamp : Z }.

Inductive Response : Type :=
| Json200 (body : Analysis)
| JsonError (status : Z) (error code : string).

Record Body := mkBody { resumeText : JsVal; jobDescText : JsVal }.

Definition CACHE_TTL : Z := 1000 * 60 * 60 * 24.

(** ** Programs over the calls the handler makes *)

Inductive Event : Type -> Type :=
| Sha256Hex (s : string) : Event string
| MemoryGet (key : string) : Event (option MemEntry)
| MemorySet (key : string) (e : MemEntry) : Event unit
| DateNow : Event Z
| RandomUUID : Event string
| IsoNow : Event string
| FindUnique (rh jh : string) : Event (Result (option Analysis))
| Create (d : CreateData) : Event (Result Analysis)
| GenerateContent (resume job : string) : Event (Result (option string)).

Inductive Prog (A : Type) : Type :=
| Ret (a : A)
| Vis (X : Type) (e : Event X) (k : X -> Prog A).
Arguments Ret {A} a.
Arguments Vis {A X} e k.

Fixpoint bind {A B : Type} (p : Prog A) (f : A -> Prog B) : Prog B :=
  match p with
  | Ret a => f a
  | Vis e k => Vis e (fun x => bind (k x) f)
  end.

Definition call {X : Type} (e : Event X) : Prog X := Vis e Ret.

(** Sequencing of a computation that may throw: a [Throw] skips the rest
    of the enclosing [try] block. *)
Definition bindE {A B : Type} (p : Prog (Result A)) (f : A -> Prog (Result B))
  : Prog (Result B) :=
  bind p (fun r => match r with Ok a => f a | Throw e => Ret (Throw e) end).

Notation "'let*' x ':=' p 'in' q" := (bind p (fun x => q))
  (at level 10, x name, p at level 100, q at level 200).
Notation "'try*' x ':=' p 'in' q" := (bindE p (fun x => q))
  (at level 10, x name, p at level 100, q at level 200).

(** ** [backend/services/ai.js] *)

Module Zod.

Definition string_ (v : JsVal) : option string :=
  match v with
  | JStr s => Some s
  | _ => None
  end.

Fixpoint all_of {A : Type} (f : JsVal -> option A) (items : list JsVal)
  : option (list A) :=
  match items with
  | [] => Some []
  | v :: rest =>
      match f v, all_of f rest with
      | Some a, Some l => Some (a :: l)
      | _, _ => None
      end
  end.

Definition array {A : Type} (f : JsVal -> option A) (v : JsVal)
  : option (list A) :=
  match v with
  | JArr items => all_of f items
  | _ => None
  end.

(** [z.object({ title: z.string(), description: z.string() })] *)
Definition step (v : JsVal) : option LearningStep :=
  match v with
  | JObj props =>
      match string_ (Js.get_own "title" props),
            string_ (Js.get_own "description" props) with
      | Some t, Some d => Some (mkStep t d)
      | _, _ => None
      end
  | _ => None
  end.

(** [AnalysisSchema.parse]: [None] stands for a thrown [ZodError]. *)
Definition AnalysisSchema (v : JsVal) : option AiResult :=
  match v with
  | JObj props =>
      match array string_ (Js.get_own "missingSkills" props),
            array step (Js.get_own "learningSteps" props),
            array string_ (Js.get_own "interviewQuestions" props) with
      | Some ms, Some ls, Some iq =>
          if (1 <=? List.length ms)%nat && (List.length ms <=? 10)%nat
             && (List.length ls =? 3)%nat && (List.length iq =? 3)%nat
          then Some (mkAiResult ms ls iq)
          else None
      | _, _, _ => None
      end
  | _ => None
  end.

End Zod.

Module Fence.

Import JsString.

Definition newline : string := String (of_code 10) EmptyString.

Fixpoint rev_onto (s acc : string) : string :=
  match s with
  | EmptyString => acc
  | String c s' => rev_onto s' (String c acc)
  end.

Definition rev (s : string) : string := rev_onto s EmptyString.

(** the optional line feed of both patterns *)
Definition skip_newline (s : string) : string :=
  if startsWith newline s then drop 1 s else s.

(** [s.replace(/\n?```$/, '')] *)
Definition strip_close (s : string) : string :=
  let r := rev s in
  if startsWith "```" r then rev (skip_newline (drop 3 r)) else s.

(** The text handed to [JSON.parse]. *)
Definition clean (responseText : string) : string :=
  let cleanedText := trim responseText in
  let cleanedText :=
    if startsWith "```json" cleanedText
    then strip_close (skip_newline (drop 7 cleanedText))
    else if startsWith "```" cleanedText
    then strip_close (skip_newline (drop 3 cleanedText))
    else cleanedText in
  trim cleanedText.

End Fence.

Section Runtime.

(** Two built-ins of the JavaScript runtime are taken as they come:
    [JSON.parse], and ToNumber on the operands that are not primitive
    numbers-to-be (strings, arrays, objects), which may throw. *)
Variable JSON_parse : string -> Result JsVal.
Variable ToNumber : JsVal -> Result JsNumber.

(** [v < 50] *)
Definition less_than_50 (v : JsVal) : Result bool :=
  match v with
  | JUndefined => Ok false
  | JNull | JBool _ => Ok true
  | JNum n => Ok (Js.num_lt_50 n)
  | JStr _ | JArr _ | JObj _ =>
      match ToNumber v with
      | Ok n => Ok (Js.num_lt_50 n)
      | Throw e => Throw e
      end
  end.

(** The [TypeError] of [v.trim()] on a value that is not a string. *)
Definition not_a_function (name : string) : JsError :=
  mkError TypeErrorC (name +:+ ".trim is not a function").

(** The body of the [try] block of [analyzeGap], after the model
    answered. *)
Definition read_response (response : Result (option string)) : Result AiResult :=
  match response with
  | Throw e => Throw e
  | Ok None =>
      Throw (mkError TypeErrorC
               "Cannot read properties of undefined (reading 'trim')")
  | Ok (Some responseText) =>
      match JSON_parse (Fence.clean responseText) with
      | Throw e => Throw e
      | Ok parsed =>
          match Zod.AnalysisSchema parsed with
          | Some validated => Ok validated
          | None => Throw (mkError ZodErrorC "invalid analysis")
          end
      end
  end.

(** The [catch] block of [analyzeGap]. *)
Definition rethrow (error : JsError) : JsError :=
  match err_class error with
  | ZodErrorC =>
      mkError ErrorC "AI returned malformed data. Please try again."
  | _ => mkError ErrorC ("AI Service Failed: " +:+ message error)
  end.

(** The prompt is a fixed template around the two slices; the call is
    recorded with the slices. *)
Definition analyzeGap (resumeText jobDescText : string) : Prog (Result AiResult) :=
  let* response := call (GenerateContent (JsString.slice0 8000 resumeText)
                                         (JsString.slice0 8000 jobDescText)) in
  Ret (match read_response response with
       | Ok validated => Ok validated
       | Throw error => Throw (rethrow error)
       end).

(** ** [backend/index.js]: [POST /api/analyze] *)

Definition validation_required : Response :=
  JsonError 400 "Resume and Job Description are required" "VALIDATION_ERROR".

Definition validation_too_short : Response :=
  JsonError 400
    "Please provide more detailed Resume and Job Description (min 50 characters each)"
    "VALIDATION_ERROR".

(** The outer [catch] block. *)
Definition on_error (error : JsError) : Response :=
  if JsString.includes "malformed" (message error) then
    JsonError 422 "AI returned invalid data. Please try again."
              "AI_VALIDATION_ERROR"
  else if JsString.includes "AI Service Failed" (message error) then
    JsonError 503
      "AI service is temporarily unavailable. Please try again later."
      "AI_SERVICE_ERROR"
  else
    JsonError 500 "Something went wrong processing your request."
              "INTERNAL_ERROR".

Definition cacheKey (resumeHash jobDescHash : string) : string :=
  resumeHash +:+ ":" +:+ jobDescHash.

(** Steps 3 and 4: the model is asked, the row is inserted unless the
    lookup failed, the [Map] is written in either case. *)
Definition compute_and_store (resumeText jobDescText resumeHash jobDescHash : string)
           (dbAvailable : bool) : Prog (Result Response) :=
  try* aiResult := analyzeGap resumeText jobDescText in
  let* uuid := call RandomUUID in
  let* now := call IsoNow in
  let responseData :=
    mkAnalysis uuid now resumeHash jobDescHash
               (ai_missingSkills aiResult) (ai_learningSteps aiResult)
               (ai_interviewQuestions aiResult) (Some false) in
  let* responseData :=
    (if dbAvailable then
       let* saved := call (Create (mkCreateData resumeHash jobDescHash
                                     (ai_missingSkills aiResult)
                                     (ai_learningSteps aiResult)
                                     (ai_interviewQuestions aiResult))) in
       match saved with
       | Ok newAnalysis => Ret (with_cached newAnalysis false)
       | Throw saveError => Ret responseData
       end
     else Ret responseData) in
  let* t := call DateNow in
  let* _ := call (MemorySet (cacheKey resumeHash jobDescHash)
                            (mkMemEntry responseData t)) in
  Ret (Ok (Json200 responseData)).

(** Step 2b: the lookup in the table, with its own [try]/[catch]. *)
Definition lookup_then_compute (resumeText jobDescText resumeHash jobDescHash : string)
  : Prog (Result Response) :=
  let* found := call (FindUnique resumeHash jobDescHash) in
  match found with
  | Ok (Some existingAnalysis) =>
      let* t := call DateNow in
      let* _ := call (MemorySet (cacheKey resumeHash jobDescHash)
                                (mkMemEntry existingAnalysis t)) in
      Ret (Ok (Json200 (with_cached existingAnalysis true)))
  | Ok None =>
      compute_and_store resumeText jobDescText resumeHash jobDescHash true
  | Throw dbError =>
      compute_and_store resumeText jobDescText resumeHash jobDescHash false
  end.

(** Step 2a: the [Map], then the rest on a miss. *)
Definition resolve (resumeText jobDescText resumeHash jobDescHash : string)
  : Prog (Result Response) :=
  let* memCached := call (MemoryGet (cacheKey resumeHash jobDescHash)) in
  match memCached with
  | Some entry =>
      let* t := call DateNow in
      if t - timestamp entry <? CACHE_TTL
      then Ret (Ok (Json200 (with_cached (data entry) true)))
      else lookup_then_compute resumeText jobDescText resumeHash jobDescHash
  | None => lookup_then_compute resumeText jobDescText resumeHash jobDescHash
  end.

(** Step 1: hashing; [trim] exists on strings only. *)
Definition hash_and_resolve (body : Body) : Prog (Result Response) :=
  match resumeText body with
  | JStr r =>
      let* resumeHash :=
        call (Sha256Hex (JsString.toLowerCase (JsString.trim r))) in
      match jobDescText body with
      | JStr j =>
          let* jobDescHash :=
            call (Sha256Hex (JsString.toLowerCase (JsString.trim j))) in
          resolve r j resumeHash jobDescHash
      | _ => Ret (Throw (not_a_function "jobDescText"))
      end
  | _ => Ret (Throw (not_a_function "resumeText"))
  end.

(** The [try] block. *)
Definition try_block (body : Body) : Prog (Result Response) :=
  if negb (Js.truthy (resumeText body)) || negb (Js.truthy (jobDescText body))
  then Ret (Ok validation_required)
  else
    try* short := Ret (match less_than_50 (Js.dot_length (resumeText body)) with
                       | Ok true => Ok true
                       | Ok false => less_than_50 (Js.dot_length (jobDescText body))
                       | Throw e => Throw e
                       end) in
    if (short : bool) then Ret (Ok validation_too_short)
    else hash_and_resolve body.

Definition post_api_analyze (body : Body) : Prog Response :=
  let* outcome := try_block body in
  Ret (match outcome with
       | Ok response => response
       | Throw error => on_error error
       end).

End Runtime.

(** ** Running a program

    The process state is the [Map]; everything else lives in a world [W]
    the handler reaches through its calls.  The three awaited calls hand
    control back to the event loop, so their answer comes with a whole new
    state: other requests may have run meanwhile. *)

Record State (W : Type) := mkState
  { memoryCache : gmap string MemEntry; world : W }.
Arguments mkState {W} memoryCache world.
Arguments memoryCache {W} s.
Arguments world {W} s.

Record Env (W : Type) := mkEnv
  { date_now : W -> Z * W;
    random_uuid : W -> string * W;
    iso_now : W -> string * W;
    find_unique : string -> string -> State W -> Result (option Analysis) * State W;
    create : CreateData -> State W -> Result Analysis * State W;
    generate_content : string -> string -> State W
                       -> Result (option string) * State W }.
Arguments date_now {W} e.
Arguments random_uuid {W} e.
Arguments iso_now {W} e.
Arguments find_unique {W} e.
Arguments create {W} e.
Arguments generate_content {W} e.

(** A call together with its answer. *)
Inductive Call : Type :=
| CSha256Hex (s digest : string)
| CMemoryGet (key : string) (found : option MemEntry)
| CMemorySet (key : string) (e : MemEntry)
| CDateNow (t : Z)
| CRandomUUID (u : string)
| CIsoNow (s : string)
| CFindUnique (rh jh : string) (r : Result (option Analysis))
| CCreate (d : CreateData) (r : Result Analysis)
| CGenerateContent (resume job : string) (r : Result (option string)).

Definition observe {X : Type} (e : Event X) : X -> Call :=
  match e in Event X return X -> Call with
  | Sha256Hex s => CSha256Hex s
  | MemoryGet key => CMemoryGet key
  | MemorySet key e => fun _ => CMemorySet key e
  | DateNow => CDateNow
  | RandomUUID => CRandomUUID
  | IsoNow => CIsoNow
  | FindUnique rh jh => CFindUnique rh jh
  | Create d => CCreate d
  | GenerateContent resume job => CGenerateContent resume job
  end.

Section Run.

Context {W : Type} (env : Env W).

Definition in_world {X : Type} (f : W -> X * W) (s : State W) : X * State W :=
  (fst (f (world s)), mkState (memoryCache s) (snd (f (world s)))).

Definition perform {X : Type} (e : Event X) : State W -> X * State W :=
  match e in Event X return State W -> X * State W with
  | Sha256Hex x => fun s => (sha256_hex x, s)
  | MemoryGet key => fun s => (memoryCache s !! key, s)
  | MemorySet key v =>
      fun s => (tt, mkState (<[key := v]> (memoryCache s)) (world s))
  | DateNow => in_world (date_now env)
  | RandomUUID => in_world (random_uuid env)
  | IsoNow => in_world (iso_now env)
  | FindUnique rh jh => find_unique env rh jh
  | Create d => create env d
  | GenerateContent resume job => generate_content env resume job
  end.

(** The result, the final state and the calls made, oldest first. *)
Fixpoint run {A : Type} (p : Prog A) (s : State W) : A * State W * list Call :=
  match p with
  | Ret a => (a, s, [])
  | Vis e k =>
      let xs := perform e s in
      let r := run (k (fst xs)) (snd xs) in
      (fst (fst r), snd (fst r), observe e (fst xs) :: snd r)
  end.

End Run.

(** ** A world for one process and one store

    The table of the store with its compound unique key, the schedule of
    its outages, the answers the model is going to give, the clock, and a
    rival: a row that a concurrent request commits while this one awaits
    the model. *)

Record World := mkWorld
  { clock : Z;
    iso_of : Z -> string;
    uuid_of : nat -> string;
    uuids_drawn : nat;
    table : gmap (string * string) Analysis;
    row_id_of : nat -> string;
    rows_made : nat;
    outages : list bool;
    replies : list (Result (option string));
    rival : option Analysis }.

Module Store.

Definition unreachable : JsError :=
  mkError ClientErrorC "Can't reach database server".

Definition unique_violation : JsError :=
  mkError ClientErrorC
    "Unique constraint failed on the fields: (`resumeHash`,`jobDescHash`)".

Definition no_reply : JsError :=
  mkError ClientErrorC "fetch failed".

(** The head of [outages] says whether the coming operation finds the
    store unreachable; an exhausted schedule means it is reachable. *)
Definition down (w : World) : bool :=
  match outages w with
  | b :: _ => b
  | [] => false
  end.

Definition next_op (w : World) (t : gmap (string * string) Analysis)
           (made : nat) : World :=
  mkWorld (clock w) (iso_of w) (uuid_of w) (uuids_drawn w) t
          (row_id_of w) made (tl (outages w)) (replies w) (rival w).

Definition findUnique (rh jh : string) (s : State World)
  : Result (option Analysis) * State World :=
  let w := world s in
  let s' := mkState (memoryCache s) (next_op w (table w) (rows_made w)) in
  if down w then (Throw unreachable, s')
  else (Ok (table w !! (rh, jh)), s').

Definition row (w : World) (d : CreateData) : Analysis :=
  mkAnalysis (row_id_of w (rows_made w)) (iso_of w (clock w))
             (cd_resumeHash d) (cd_jobDescHash d) (cd_missingSkills d)
             (cd_learningSteps d) (cd_interviewQuestions d) None.

Definition create (d : CreateData) (s : State World)
  : Result Analysis * State World :=
  let w := world s in
  let key := (cd_resumeHash d, cd_jobDescHash d) in
  if down w then
    (Throw unreachable,
     mkState (memoryCache s) (next_op w (table w) (rows_made w)))
  else
    match table w !! key with
    | Some _ =>
        (Throw unique_violation,
         mkState (memoryCache s) (next_op w (table w) (rows_made w)))
    | None =>
        (Ok (row w d),
         mkState (memoryCache s)
                 (next_op w (<[key := row w d]> (table w)) (S (rows_made w))))
    end.

(** The rival's insert obeys the unique key as well. *)
Definition commit_rival (w : World) : gmap (string * string) Analysis :=
  match rival w with
  | Some r =>
      match table w !! (resumeHash r, jobDescHash r) with
      | Some _ => table w
      | None => <[(resumeHash r, jobDescHash r) := r]> (table w)
      end
  | None => table w
  end.

Definition generateContent (resume job : string) (s : State World)
  : Result (option string) * State World :=
  let w := world s in
  let w' := mkWorld (clock w) (iso_of w) (uuid_of w) (uuids_drawn w)
                    (commit_rival w) (row_id_of w) (rows_made w)
                    (outages w) (tl (replies w)) None in
  (match replies w with
   | r :: _ => r
   | [] => Throw no_reply
   end, mkState (memoryCache s) w').

Definition dateNow (w : World) : Z * World := (clock w, w).

Definition isoNow (w : World) : string * World := (iso_of w (clock w), w).

Definition randomUUID (w : World) : string * World :=
  (uuid_of w (uuids_drawn w),
   mkWorld (clock w) (iso_of w) (uuid_of w) (S (uuids_drawn w)) (table w)
           (row_id_of w) (rows_made w) (outages w) (replies w) (rival w)).

Definition env : Env World :=
  mkEnv World dateNow randomUUID isoNow findUnique create generateContent.

(** Time passes between two requests; the schedules are renewed. *)
Definition later (dt : Z) (down : list bool)
           (answers : list (Result (option string))) (s : State World)
  : State World :=
  let w := world s in
  mkState (memoryCache s)
          (mkWorld (clock w + dt) (iso_of w) (uuid_of w) (uuids_drawn w)
                   (table w) (row_id_of w) (rows_made w) down answers None).

End Store.

(** ** Derived notions used in the statements *)

(** Line 63 and 64: what is fed to the hash. *)
Definition normalize (text : string) : string :=
  JsString.toLowerCase (JsString.trim text).

(** Line 65, for two texts. *)
Definition derived_key (resume job : string) : string :=
  cacheKey (sha256_hex (normalize resume)) (sha256_hex (normalize job)).

(** A field the first check rejects. *)
Definition absent (v : JsVal) : Prop := Js.truthy v = false.

(** A text of fewer than 50 code units. *)
Definition too_short (v : JsVal) : Prop :=
  exists s, v = JStr s /\ (String.length s < 50)%nat.

(** A field with a numeric [length] below 50: a text of fewer than 50
    code units, and also an array of fewer than 50 items or an object
    whose [length] is such a number. *)
Definition below_50 (v : JsVal) : Prop :=
  exists n, Js.dot_length v = JNum n /\ Js.num_lt_50 n = true.

(** A field that gets through both checks of lines 48 and 55. *)
Definition passes (ToNumber : JsVal -> Result JsNumber) (v : JsVal) : Prop :=
  Js.truthy v = true /\ less_than_50 ToNumber (Js.dot_length v) = Ok false.

Definition is_string (v : JsVal) : bool :=
  match v with
  | JStr _ => true
  | _ => false
  end.

(** The reading of "a truthy non-string value without a numeric length
    property below 50". *)
Definition non_text (v : JsVal) : Prop :=
  Js.truthy v = true /\ is_string v = false
  /\ ~ (exists n, Js.dot_length v = JNum n /\ Js.num_lt_50 n = true).

Definition code_of (r : Response) : string :=
  match r with
  | Json200 _ => "OK"
  | JsonError _ _ code => code
  end.

Definition status_of (r : Response) : Z :=
  match r with
  | Json200 _ => 200
  | JsonError status _ _ => status
  end.

Definition is_create (c : Call) : bool :=
  match c with
  | CCreate _ _ => true
  | _ => false
  end.

Definition is_memory_set (c : Call) : bool :=
  match c with
  | CMemorySet _ _ => true
  | _ => false
  end.

Definition is_find (c : Call) : bool :=
  match c with
  | CFindUnique _ _ _ => true
  | _ => false
  end.

Definition is_generate (c : Call) : bool :=
  match c with
  | CGenerateContent _ _ _ => true
  | _ => false
  end.

(** The outcome of the [try] block as the client sees it. *)
Definition unwrap (outcome : Result Response) : Response :=
  match outcome with
  | Ok response => response
  | Throw error => on_error error
  end.

(** Calls that leave the process: the table and the model. *)
Definition leaves_process (c : Call) : bool :=
  is_find c || is_create c || is_generate c.

(** A request that ended at the [Map]: nothing was looked up in the
    table, computed or stored. *)
Definition served_from_memory (calls : list Call) : bool :=
  forallb (fun c => negb (leaves_process c || is_memory_set c)) calls.

(** Two analysis objects with the same payload: everything the client
    is shown but the [cached] flag. *)
Definition same_payload (a b : Analysis) : Prop :=
  id a = id b /\ createdAt a = createdAt b
  /\ missingSkills a = missingSkills b
  /\ learningSteps a = learningSteps b
  /\ interviewQuestions a = interviewQuestions b.

(** ** Texts that differ inside only *)


Fixpoint every (p : ascii -> bool) (s : string) : bool :=
  match s with
  | EmptyString => true
  | String c s' => p c && every p s'
  end.

Fixpoint some (p : ascii -> bool) (s : string) : bool :=
  match s with
  | EmptyString => false
  | String c s' => p c || some p s'
  end.

(** At least one character that [trim] does not remove. *)
Definition has_ink (s : string) : bool :=
  some (fun c => negb (JsString.is_white c)) s.




(** ** Fixtures for the examples *)

Module Demo.

Definition dq : string := String (JsString.of_code 34) EmptyString.

Definition quoted (s : string) : string := dq +:+ s +:+ dq.

(** A well-formed answer of the model, as JSON text. *)
Definition document : string :=
  "{" +:+ quoted "missingSkills" +:+ ":[" +:+ quoted "Docker" +:+ "],"
  +:+ quoted "learningSteps" +:+ ":[{" +:+ quoted "title" +:+ ":"
  +:+ quoted "Containers" +:+ "," +:+ quoted "description" +:+ ":"
  +:+ quoted "Package the React app in an image" +:+ "},{"
  +:+ quoted "title" +:+ ":" +:+ quoted "Compose" +:+ ","
  +:+ quoted "description" +:+ ":" +:+ quoted "Run it with a database"
  +:+ "},{" +:+ quoted "title" +:+ ":" +:+ quoted "Deploy" +:+ ","
  +:+ quoted "description" +:+ ":" +:+ quoted "Ship the image" +:+ "}],"
  +:+ quoted "interviewQuestions" +:+ ":[" +:+ quoted "What is an image?"
  +:+ "," +:+ quoted "What is a volume?" +:+ ","
  +:+ quoted "How do containers talk?" +:+ "]}".

Definition parsed : JsVal :=
  JObj [("missingSkills", JArr [JStr "Docker"]);
        ("learningSteps",
         JArr [JObj [("title", JStr "Containers");
                     ("description", JStr "Package the React app in an image")];
               JObj [("title", JStr "Compose");
                     ("description", JStr "Run it with a database")];
               JObj [("title", JStr "Deploy");
                     ("description", JStr "Ship the image")]]);
        ("interviewQuestions",
         JArr [JStr "What is an image?"; JStr "What is a volume?";
               JStr "How do containers talk?"])].

(** [JSON.parse] on the two documents of the examples. *)
Definition JSON_parse (s : string) : Result JsVal :=
  if String.eqb s document then Ok parsed
  else if String.eqb s "{}" then Ok (JObj [])
  else Throw (mkError SyntaxErrorC "Unexpected token in JSON").

(** ToNumber on the one kind of operand the examples compare: an
    object without [valueOf] and [toString] of its own. *)
Definition ToNumber (v : JsVal) : Result JsNumber := Ok NaN.

(** The answer of the model, fenced as it likes to. *)
Definition reply : Result (option string) :=
  Ok (Some ("```json" +:+ Fence.newline +:+ document +:+ Fence.newline +:+ "```")).

(** What [AnalysisSchema] makes of [parsed]. *)
Definition analysis : AiResult :=
  mkAiResult ["Docker"]
             [mkStep "Containers" "Package the React app in an image";
              mkStep "Compose" "Run it with a database";
              mkStep "Deploy" "Ship the image"]
             ["What is an image?"; "What is a volume?";
              "How do containers talk?"].

(** An answer that is JSON of the wrong shape. *)
Definition empty_reply : Result (option string) := Ok (Some "{}").

Definition resume : string :=
  "Saya Riswan, web developer jago React dan Next.js tapi belum pernah pakai Docker.".

Definition job : string :=
  "Dicari Web Developer yang menguasai React, Next.js, dan Docker untuk containerization.".

Definition body : Body := mkBody (JStr resume) (JStr job).

Definition iso (t : Z) : string :=
  if t <? 1000 then "2024-05-01T08:00:00.000Z" else "2024-05-02T09:00:00.000Z".

Definition uuid (n : nat) : string :=
  match n with
  | O => "3f2b8c1e-0000-4000-8000-000000000000"
  | _ => "3f2b8c1e-0000-4000-8000-000000000001"
  end.

Definition row_id (n : nat) : string :=
  match n with
  | O => "a91d77c0-0000-4000-8000-000000000000"
  | _ => "a91d77c0-0000-4000-8000-000000000001"
  end.

(** A world with an empty table. *)
Definition world (down : list bool) (answers : list (Result (option string)))
           (rival : option Analysis) : World :=
  mkWorld 500 iso uuid 0 ∅ row_id 0 down answers rival.

(** A process that has just started. *)
Definition start (down : list bool) (answers : list (Result (option string)))
           (rival : option Analysis) : State World :=
  mkState ∅ (world down answers rival).

(** The digests of the two texts. *)
Definition resume_hash : string := sha256_hex (normalize resume).
Definition job_hash : string := sha256_hex (normalize job).

(** The row of a concurrent request for the same two texts, whose
    model answered differently. *)
Definition rival_row : Analysis :=
  mkAnalysis "77e0a5d2-0000-4000-8000-000000000000" "2024-05-01T07:59:59.000Z"
             (sha256_hex (normalize resume)) (sha256_hex (normalize job))
             ["Docker"; "Kubernetes"] [] [] None.

Definition handler (b : Body) : Prog Response :=
  post_api_analyze JSON_parse ToNumber b.

(** The [responseData] literal of the first request in [start]. *)
Definition own_analysis : Analysis :=
  mkAnalysis (uuid 0) (iso 500) resume_hash job_hash
             (ai_missingSkills analysis) (ai_learningSteps analysis)
             (ai_interviewQuestions analysis) (Some false).

(** What that request tries to insert. *)
Definition own_data : CreateData :=
  mkCreateData resume_hash job_hash (ai_missingSkills analysis)
               (ai_learningSteps analysis) (ai_interviewQuestions analysis).

(** The row the store makes of it. *)
Definition own_row : Analysis :=
  mkAnalysis (row_id 0) (iso 500) resume_hash job_hash
             (ai_missingSkills analysis) (ai_learningSteps analysis)
             (ai_interviewQuestions analysis) None.

Definition forty : string := "aaaaaaaaaaaaaaaaaaaaaaaaaaaaaaaaaaaaaaaa".

End Demo.

(** ** The rest of [backend/index.js] and its callers *)

(** The shape [AnalysisSchema] asks for. *)
Definition well_shaped (a : AiResult) : Prop :=
  (1 <= List.length (ai_missingSkills a) <= 10)%nat
  /\ List.length (ai_learningSteps a) = 3%nat
  /\ List.length (ai_interviewQuestions a) = 3%nat.

(** An object that holds the two strings of a learning step, beside
    whatever else. *)
Definition step_object (v : JsVal) (s : LearningStep) : Prop :=
  exists props,
    v = JObj props
    /\ Js.get_own "title" props = JStr (title s)
    /\ Js.get_own "description" props = JStr (description s).

(** A document between an opening fence with its tag and a closing
    fence, each on a line of its own. *)
Definition fenced (tag document : string) : string :=
  "```" +:+ tag +:+ Fence.newline +:+ document +:+ Fence.newline +:+ "```".

(** The digests and the key a call is made with, if it is made with
    any. *)
Definition uses_only (rh jh : string) (c : Call) : Prop :=
  match c with
  | CMemoryGet key _ | CMemorySet key _ => key = cacheKey rh jh
  | CFindUnique rh' jh' _ => rh' = rh /\ jh' = jh
  | CCreate d _ => cd_resumeHash d = rh /\ cd_jobDescHash d = jh
  | _ => True
  end.

Definition is_hash (c : Call) : bool :=
  match c with
  | CSha256Hex _ _ => true
  | _ => false
  end.

Definition count (p : Call -> bool) (calls : list Call) : nat :=
  List.length (List.filter p calls).

(** The pairs of status and code the handler answers with, each with a
    message. *)
Definition in_taxonomy (r : Response) : Prop :=
  (exists a, r = Json200 a)
  \/ (exists e,
        e <> EmptyString
        /\ (r = JsonError 400 e "VALIDATION_ERROR"
            \/ r = JsonError 422 e "AI_VALIDATION_ERROR"
            \/ r = JsonError 503 e "AI_SERVICE_ERROR"
            \/ r = JsonError 500 e "INTERNAL_ERROR")).

Module Cors.

Definition allowedOrigins : list string :=
  ["https://ai-career-gap-frontend.vercel.app"; "http://localhost:3000"].

(** [Array.prototype.includes] on a list of strings *)
Definition includes (l : list string) (origin : string) : bool :=
  existsb (String.eqb origin) l.

(** The [origin] function handed to [cors]: what it calls [callback]
    with, the error and the verdict.  The header is a string or absent. *)
Definition origin (header : option string) : option JsError * bool :=
  match header with
  | None => (None, true)
  | Some o =>
      if String.eqb o EmptyString then (None, true)
      else if includes allowedOrigins o then (None, true)
      else (None, true)
  end.

End Cors.

Module Pdf.

(** What the handler and the middleware look at in a thrown value. *)
Record Failure := mkFailure
  { multer_error : bool; failure_code : option string; failure_message : string }.

(** The uploaded part, as multer describes it. *)
Record File := mkFile { mimetype : string; file_size : Z }.

Inductive Reply : Type :=
| Text (text : string) (pages : nat)
| Refused (status : Z) (error code : string).

(** A middleware either answers or hands the error on with [next]. *)
Inductive Handled : Type :=
| Answered (r : Reply)
| Next (err : Failure).

Definition only_pdf : string := "Only PDF files are allowed".

(** [limits.fileSize] *)
Definition fileSize : Z := 5 * 1024 * 1024.

(** [fileFilter]: [cb(null, true)], or [cb(new Error(...))]. *)
Definition fileFilter (file : File) : Failure + bool :=
  if String.eqb (mimetype file) "application/pdf" then inr true
  else inl (mkFailure false None only_pdf).

Definition too_large : Reply :=
  Refused 413 "File too large. Maximum size is 5MB." "FILE_TOO_LARGE".

(** [err.code === code] *)
Definition has_code (err : Failure) (code : string) : bool :=
  match failure_code err with
  | Some c => String.eqb c code
  | None => false
  end.

(** The error handler registered after the routes. *)
Definition error_middleware (err : Failure) : Handled :=
  if multer_error err then
    if has_code err "LIMIT_FILE_SIZE" then Answered too_large
    else Answered (Refused 400 (failure_message err) "UPLOAD_ERROR")
  else if String.eqb (failure_message err) only_pdf then
    Answered (Refused 400 (failure_message err) "INVALID_FILE_TYPE")
  else Next err.

(** What the [pdf-parse] library is going to answer: to the
    constructor, to [getText] with the text and the number of pages, to
    [destroy]. *)
Record Parser := mkParser
  { construct : option Failure;
    getText : Failure + (string * nat);
    destroy : option Failure }.

Inductive ParserCall : Type := CNew | CGetText | CDestroy.

Definition empty_pdf : Reply :=
  Refused 422
    "Could not extract text from this PDF. Please make sure it is not a scanned image."
    "EMPTY_PDF".

(** The [catch] block of the route. *)
Definition on_parse_error (error : Failure) : Reply :=
  if String.eqb (failure_message error) only_pdf then
    Refused 400 (failure_message error) "INVALID_FILE_TYPE"
  else if has_code error "LIMIT_FILE_SIZE" then too_large
  else Refused 500 "Failed to parse PDF file" "PDF_PARSE_ERROR".

(** [POST /api/parse-pdf], once [upload.single('file')] let the request
    through: the reply and the calls made on the parser. *)
Definition parse_pdf (file : option File) (p : Parser) : Reply * list ParserCall :=
  match file with
  | None => (Refused 400 "No file uploaded" "NO_FILE", [])
  | Some _ =>
      match construct p with
      | Some error => (on_parse_error error, [CNew])
      | None =>
          match getText p with
          | inl error => (on_parse_error error, [CNew; CGetText])
          | inr (raw, pages) =>
              let text := JsString.trim raw in
              match destroy p with
              | Some error => (on_parse_error error, [CNew; CGetText; CDestroy])
              | None =>
                  if String.eqb text EmptyString
                     || (String.length text <? 10)%nat
                  then (empty_pdf, [CNew; CGetText; CDestroy])
                  else (Text text pages, [CNew; CGetText; CDestroy])
              end
          end
      end
  end.

End Pdf.

(** ** [app/page.tsx]: the form that calls the route *)

Module Client.

(** [isValid] *)
Definition isValid (resume jobDesc : string) : bool :=
  (50 <=? String.length resume)%nat && (50 <=? String.length jobDesc)%nat.

(** [res.ok] *)
Definition ok (status : Z) : bool := (200 <=? status) && (status <=? 299).

Inductive View : Type :=
| Shown (data : Analysis)
| Failed (message : string).

(** What [handleSubmit] sets once the response has arrived: the result,
    or the message of the error it threw to itself. *)
Definition handleSubmit (response : Response) : View :=
  match response with
  | Json200 data => Shown data
  | JsonError status error _ =>
      if ok status then Failed "Invalid response format from server"
      else Failed (if String.eqb error EmptyString
                   then "Something went wrong" else error)
  end.

End Client.

(** ** More fixtures *)

Module Fixture.

(** A process that has just started, beside a table that holds the row
    of the two texts. *)
Definition stored : State World :=
  mkState ∅ (mkWorld 500 Demo.iso Demo.uuid 0
                     {[ (Demo.resume_hash, Demo.job_hash) := Demo.own_row ]}
                     Demo.row_id 1 [] [Demo.reply] None).

(** Sixty blanks. *)
Definition blank60 : string :=
  "                                                            ".

(** The model cannot be reached, and says so with an unlucky word. *)
Definition rejected : JsError :=
  mkError ClientErrorC "400 Bad Request: malformed request body".

Definition pdf : Pdf.File := Pdf.mkFile "application/pdf" 48213.

(** A parser that reads one page with a short line on it. *)
Definition parser : Pdf.Parser :=
  Pdf.mkParser None (inr ("  Riswan, web developer  ", 1%nat)) None.

End Fixture.

(** ** What the outer [catch] makes of a failure of [analyzeGap] *)

(** A failure that the client is told as AI_VALIDATION_ERROR: a
    [ZodError], which [analyzeGap] rethrows with the word, or any other
    error whose own message holds the word. *)
Definition told_malformed (error : JsError) : bool :=
  match err_class error with
  | ZodErrorC => true
  | _ => JsString.includes "malformed" (message error)
  end.

Definition ai_validation_error : Response :=
  JsonError 422 "AI returned invalid data. Please try again."
            "AI_VALIDATION_ERROR".

Definition ai_service_error : Response :=
  JsonError 503 "AI service is temporarily unavailable. Please try again later."
            "AI_SERVICE_ERROR".

Definition internal_error : Response :=
  JsonError 500 "Something went wrong processing your request." "INTERNAL_ERROR".

(** ** Strings beyond Latin-1

    A JavaScript string is any sequence of UTF-16 code units, and
    [hash.update(string)] hashes its UTF-8 encoding.  Here a string is
    the list of its code units, each in [0, 65536). *)

Module Utf16.

Definition text : Type := list Z.

Definition of_string (s : string) : text :=
  map JsString.code (list_ascii_of_string s).

Definition is_high (u : Z) : bool := (0xD800 <=? u) && (u <=? 0xDBFF).

Definition is_low (u : Z) : bool := (0xDC00 <=? u) && (u <=? 0xDFFF).

(** [WhiteSpace] and [LineTerminator] *)
Definition is_white (u : Z) : bool :=
  ((9 <=? u) && (u <=? 13)) || (u =? 32) || (u =? 160) || (u =? 0x1680)
  || ((0x2000 <=? u) && (u <=? 0x200A)) || (u =? 0x2028) || (u =? 0x2029)
  || (u =? 0x202F) || (u =? 0x205F) || (u =? 0x3000) || (u =? 0xFEFF).

Fixpoint trimStart (t : text) : text :=
  match t with
  | [] => []
  | u :: t' => if is_white u then trimStart t' else t
  end.

Fixpoint trimEnd (t : text) : text :=
  match t with
  | [] => []
  | u :: t' =>
      match trimEnd t' with
      | [] => if is_white u then [] else [u]
      | rest => u :: rest
      end
  end.

(** [String.prototype.trim] *)
Definition trim (t : text) : text := trimEnd (trimStart t).

(** [String.prototype.toLowerCase] where this development follows it:
    on code units below 256, mapped as [JsString.lower] does, and on
    surrogates that stand alone, which are no letters and stay.  A text
    with a surrogate pair or another code unit is not covered. *)
Fixpoint toLowerCase (t : text) : option text :=
  match t with
  | [] => Some []
  | u :: t' =>
      if u <? 256 then
        option_map (cons (JsString.code (JsString.lower (JsString.of_code u))))
                   (toLowerCase t')
      else if is_high u then
        match t' with
        | l :: _ => if is_low l then None else option_map (cons u) (toLowerCase t')
        | [] => Some [u]
        end
      else if is_low u then option_map (cons u) (toLowerCase t')
      else None
  end.

(** U+FFFD, which stands for a surrogate without its other half. *)
Definition replacement : list Z := [0xEF; 0xBF; 0xBD].

Definition continuation (x : Z) : Z := Z.lor 0x80 (Z.land x 0x3F).

(** The UTF-8 encoding of a string, as [hash.update(string)] applies
    it: a surrogate pair is one code point of four bytes, a surrogate
    without its other half is encoded as U+FFFD. *)
Fixpoint utf8 (t : text) : list Z :=
  match t with
  | [] => []
  | u :: t' =>
      if u <? 0x80 then u :: utf8 t'
      else if u <? 0x800 then
        Z.lor 0xC0 (Z.shiftr u 6) :: continuation u :: utf8 t'
      else if is_high u then
        match t' with
        | l :: t'' =>
            if is_low l then
              let cp := 0x10000 + (u - 0xD800) * 0x400 + (l - 0xDC00) in
              Z.lor 0xF0 (Z.shiftr cp 18) :: continuation (Z.shiftr cp 12)
              :: continuation (Z.shiftr cp 6) :: continuation cp :: utf8 t''
            else replacement ++ utf8 t'
        | [] => replacement
        end
      else if is_low u then replacement ++ utf8 t'
      else
        Z.lor 0xE0 (Z.shiftr u 12) :: continuation (Z.shiftr u 6)
        :: continuation u :: utf8 t'
  end.

(** [crypto.createHash('sha256').update(t).digest('hex')] *)
Definition sha256_hex (t : text) : string := SHA256.hex (SHA256.digest (utf8 t)).

(** Lines 63 and 64: what is fed to the hash. *)
Definition normalize (t : text) : option text := toLowerCase (trim t).

(** Line 65, for two texts. *)
Definition derived_key (resume job : text) : option string :=
  match normalize resume, normalize job with
  | Some r, Some j => Some (cacheKey (sha256_hex r) (sha256_hex j))
  | _, _ => None
  end.

End Utf16.

(** ** Fixtures for the amended statements *)

Module Sample.

(** ToNumber on an object parsed from JSON, the one kind of operand the
    examples below apply it to.  OrdinaryToPrimitive tries [valueOf],
    which such an object inherits and which gives back the object, then
    [toString]: an own property of that name is no function, and the
    conversion throws; the inherited one gives a text that is no
    number.  Strings and arrays are not covered and given [NaN]. *)
Definition ToNumber (v : JsVal) : Result JsNumber :=
  match v with
  | JObj props =>
      match Js.get_own "toString" props with
      | JUndefined => Ok NaN
      | _ => Throw (mkError TypeErrorC "Cannot convert object to primitive value")
      end
  | _ => Ok NaN
  end.

(** A [resumeText] whose [length] cannot be converted to a number. *)
Definition odd_length : JsVal := JObj [("length", JObj [("toString", JNull)])].


(** An answer of the model that is no JSON. *)
Definition prose : Result (option string) :=
  Ok (Some "Maaf, saya tidak dapat menganalisis teks ini.").

(** An answer of the model without text. *)
Definition no_text : Result (option string) := Ok None.

(** The response to the two texts from a process that just started,
    when the model answers with [reply]. *)
Definition response_to (reply : Result (option string)) : Response :=
  fst (fst (run Store.env (Demo.handler Demo.body)
                (Demo.start [] [reply] None))).


End Sample.

(** ** Tactics

    Symbolic execution of a run: reduce, and split on whatever a [match]
    is stuck on. *)

Ltac crunch :=
  repeat (cbn -[Z.ltb CACHE_TTL]
          || match goal with
             | |- context [match ?x with _ => _ end] => destruct x eqn:?
             end).

Ltac split_in :=
  repeat match goal with
         | H : _ \/ _ |- _ => destruct H
         | H : In _ (_ :: _) |- _ => cbn [In] in H
         | H : In _ [] |- _ => cbn [In] in H
         end;
  try contradiction; try discriminate.

Ltac open_resolve :=
  unfold resolve, lookup_then_compute, compute_and_store, analyzeGap, bindE.

Ltac go := cbn -[Z.ltb CACHE_TTL].

(** ** Facts about the building blocks *)

Lemma startsWith_append (p s : string) : JsString.startsWith p (p +:+ s) = true.
Proof.
  induction p as [| c p IH]; [reflexivity |].
  change (String c p +:+ s) with (String c (p +:+ s)).
  cbn [JsString.startsWith]. now rewrite Ascii.eqb_refl, IH.
Qed.

Lemma includes_cons (needle : string) (c : ascii) (s : string) :
  JsString.includes needle (String c s)
  = JsString.startsWith needle (String c s) || JsString.includes needle s.
Proof. reflexivity. Qed.

Lemma includes_prefix (p s : string) : JsString.includes p (p +:+ s) = true.
Proof.
  destruct (p +:+ s) eqn:E.
  - destruct p; [reflexivity | discriminate].
  - rewrite includes_cons, <- E, startsWith_append. reflexivity.
Qed.

(** The prefix that [analyzeGap] puts before a message holds no ["m"]. *)
Lemma includes_malformed_failed (m : string) :
  JsString.includes "malformed" ("AI Service Failed: " +:+ m)
  = JsString.includes "malformed" m.
Proof.
  change ("AI Service Failed: " +:+ m)
    with (String "A" (String "I" (String " " (String "S" (String "e"
         (String "r" (String "v" (String "i" (String "c" (String "e"
         (String " " (String "F" (String "a" (String "i" (String "l"
         (String "e" (String "d" (String ":" (String " " m))))))))))))))))))).
  repeat rewrite includes_cons. reflexivity.
Qed.

Arguments sha256_hex : simpl never.
Arguments cacheKey : simpl never.
Arguments resolve : simpl never.
Arguments normalize : simpl never.
Arguments JsString.includes : simpl never.

Lemma num_lt_50_of_nat (n : nat) :
  Js.num_lt_50 (Finite (inject_Z (Z.of_nat n))) = (n <? 50)%nat.
Proof.
  unfold Js.num_lt_50.
  destruct (Qlt_le_dec (inject_Z (Z.of_nat n)) 50) as [H | H];
    unfold Qlt, Qle in H; cbn in H; symmetry.
  - apply Nat.ltb_lt. lia.
  - apply Nat.ltb_ge. lia.
Qed.

Lemma less_than_50_length (ToNumber : JsVal -> Result JsNumber) (s : string) :
  less_than_50 ToNumber (Js.dot_length (JStr s)) = Ok (String.length s <? 50)%nat.
Proof.
  unfold less_than_50, Js.dot_length, Js.of_nat.
  now rewrite num_lt_50_of_nat.
Qed.

Lemma truthy_text (s : string) :
  (0 < String.length s)%nat -> Js.truthy (JStr s) = true.
Proof. destruct s; cbn; [lia | reflexivity]. Qed.

Lemma passes_text (ToNumber : JsVal -> Result JsNumber) (s : string) :
  (50 <= String.length s)%nat -> passes ToNumber (JStr s).
Proof.
  intros H. split.
  - apply truthy_text. lia.
  - rewrite less_than_50_length. f_equal. apply Nat.ltb_ge. lia.
Qed.

Lemma on_error_not_200 (e : JsError) (a : Analysis) : on_error e <> Json200 a.
Proof.
  unfold on_error.
  destruct (JsString.includes "malformed" (message e));
    [| destruct (JsString.includes "AI Service Failed" (message e))];
    discriminate.
Qed.

Section Validation.

Variable JSON_parse : string -> Result JsVal.
Variable ToNumber : JsVal -> Result JsNumber.
Context {W : Type} (env : Env W).

Local Notation "'handler'" := (post_api_analyze JSON_parse ToNumber).

Lemma rejected_when_absent (body : Body) (s : State W) :
  absent (resumeText body) \/ absent (jobDescText body) ->
  run env (handler body) s = (validation_required, s, []).
Proof.
  unfold absent, post_api_analyze, try_block.
  intros [H | H]; rewrite H; cbn; [| rewrite orb_true_r]; reflexivity.
Qed.

Lemma rejected_when_short (body : Body) (s : State W) :
  Js.truthy (resumeText body) = true ->
  Js.truthy (jobDescText body) = true ->
  less_than_50 ToNumber (Js.dot_length (resumeText body)) = Ok true
  \/ (less_than_50 ToNumber (Js.dot_length (resumeText body)) = Ok false
      /\ less_than_50 ToNumber (Js.dot_length (jobDescText body)) = Ok true) ->
  run env (handler body) s = (validation_too_short, s, []).
Proof.
  unfold post_api_analyze, try_block.
  intros Hr Hj [H | [H H']]; rewrite Hr, Hj, H; cbn; [| rewrite H'];
    reflexivity.
Qed.

(** Once both checks are passed, the request is the hashing step. *)
Lemma accepted (body : Body) :
  passes ToNumber (resumeText body) ->
  passes ToNumber (jobDescText body) ->
  try_block JSON_parse ToNumber body = hash_and_resolve JSON_parse body.
Proof.
  unfold passes, try_block.
  intros [Hr Hr'] [Hj Hj']. rewrite Hr, Hj, Hr', Hj'. reflexivity.
Qed.

(** The comparison of line 55 can throw on an object only, when its
    [length] is a string, an array or an object. *)
Lemma length_throws_on_object (v : JsVal) (e : JsError) :
  less_than_50 ToNumber (Js.dot_length v) = Throw e ->
  exists props, v = JObj props /\ ToNumber (Js.get_own "length" props) = Throw e.
Proof.
  destruct v as [| | b | n | t | items | props]; cbn; try discriminate.
  intros H. exists props. split; [reflexivity |].
  destruct (Js.get_own "length" props); cbn in H; try discriminate H;
    destruct (ToNumber _); congruence.
Qed.

Lemma too_short_below_50 (v : JsVal) : too_short v -> below_50 v.
Proof.
  intros (x & -> & L). exists (Finite (inject_Z (Z.of_nat (String.length x)))).
  split; [reflexivity |]. rewrite num_lt_50_of_nat. now apply Nat.ltb_lt.
Qed.

Lemma below_50_compares (v : JsVal) :
  below_50 v -> less_than_50 ToNumber (Js.dot_length v) = Ok true.
Proof. intros (n & -> & H). cbn. now rewrite H. Qed.

(** What the [try] block makes of a request that the hashing step is
    not reached by. *)
Lemma run_stopped (body : Body) (s : State W) :
  absent (resumeText body) \/ absent (jobDescText body)
  \/ below_50 (resumeText body) \/ below_50 (jobDescText body) ->
  (run env (handler body) s = (validation_required, s, [])
   /\ (absent (resumeText body) \/ absent (jobDescText body)))
  \/ (run env (handler body) s = (validation_too_short, s, [])
      /\ Js.truthy (resumeText body) = true /\ Js.truthy (jobDescText body) = true
      /\ exists b, less_than_50 ToNumber (Js.dot_length (resumeText body)) = Ok b)
  \/ (exists e,
         run env (handler body) s = (on_error e, s, [])
         /\ Js.truthy (resumeText body) = true /\ Js.truthy (jobDescText body) = true
         /\ less_than_50 ToNumber (Js.dot_length (resumeText body)) = Throw e).
Proof.
  intros H.
  destruct (Js.truthy (resumeText body)) eqn:Hr;
    [| left; split; [apply rejected_when_absent |]; left; exact Hr].
  destruct (Js.truthy (jobDescText body)) eqn:Hj;
    [| left; split; [apply rejected_when_absent |]; right; exact Hj].
  right.
  assert (Hshort : below_50 (resumeText body) \/ below_50 (jobDescText body)).
  { unfold absent in H. destruct H as [H | [H | H]]; [congruence .. | exact H]. }
  destruct (less_than_50 ToNumber (Js.dot_length (resumeText body)))
    as [[] | e] eqn:Hlr.
  - left. split; [| repeat split; eauto].
    apply rejected_when_short; auto.
  - left. split; [| repeat split; eauto].
    apply rejected_when_short; auto. right. split; [exact Hlr |].
    destruct Hshort as [Hs | Hs]; [| now apply below_50_compares].
    apply below_50_compares in Hs. congruence.
  - right. exists e. split; [| repeat split; reflexivity].
    unfold post_api_analyze, try_block. rewrite Hr, Hj, Hlr. reflexivity.
Qed.

(** C4, as the handler has it.  A request whose [resumeText] or
    [jobDescText] is missing, or has a [length] below 50 as a text of
    fewer than 50 characters has, fails before the hashing step,
    whatever the other field is: the handler has made no call at all (no
    digest was computed, the [Map] and the table were neither read nor
    written, the model was not asked), the state is the one it started
    from, and the response is an error.  The error is 400
    VALIDATION_ERROR, with one exception: when both fields are there and
    the comparison of the [length] of [resumeText] with 50 throws, which
    it can only for an object whose [length] is no primitive value, the
    response is the one the outer [catch] makes of what was thrown. *)
Theorem validation_precedes_hashing (body : Body) (s : State W) :
  absent (resumeText body) \/ absent (jobDescText body)
  \/ below_50 (resumeText body) \/ below_50 (jobDescText body) ->
  let out := run env (handler body) s in
  snd (fst out) = s
  /\ snd out = []
  /\ (forall a, fst (fst out) <> Json200 a)
  /\ ((absent (resumeText body) \/ absent (jobDescText body)
       \/ (forall props, resumeText body <> JObj props)
       \/ exists b, less_than_50 ToNumber (Js.dot_length (resumeText body)) = Ok b) ->
      status_of (fst (fst out)) = 400
      /\ code_of (fst (fst out)) = "VALIDATION_ERROR")
  /\ (forall e,
         Js.truthy (resumeText body) = true ->
         Js.truthy (jobDescText body) = true ->
         less_than_50 ToNumber (Js.dot_length (resumeText body)) = Throw e ->
         fst (fst out) = on_error e
         /\ exists props,
             resumeText body = JObj props
             /\ ToNumber (Js.get_own "length" props) = Throw e).
Proof.
  intros H. cbv zeta.
  destruct (run_stopped body s H)
    as [[E Ha] | [(E & Hr & Hj & b & Hb) | (e & E & Hr & Hj & He)]];
    rewrite E; cbn [fst snd].
  - split; [reflexivity |]. split; [reflexivity |].
    split; [intros a; discriminate |]. split; [intros _; split; reflexivity |].
    intros e Hr Hj. unfold absent in Ha. destruct Ha; congruence.
  - split; [reflexivity |]. split; [reflexivity |].
    split; [intros a; discriminate |]. split; [intros _; split; reflexivity |].
    intros e _ _ He. congruence.
  - split; [reflexivity |]. split; [reflexivity |].
    split; [intros a; apply on_error_not_200 |]. split.
    + unfold absent. intros [Ha | [Ha | [Ha | [b Hb]]]]; try congruence.
      destruct (length_throws_on_object _ _ He) as (props & Ep & _).
      now destruct (Ha props).
    + intros e' _ _ He'. rewrite He in He'. injection He' as <-.
      split; [reflexivity |]. now apply length_throws_on_object.
Qed.

End Validation.

(** ** The handler against an arbitrary environment *)

Section Handler.

Variable JSON_parse : string -> Result JsVal.
Variable ToNumber : JsVal -> Result JsNumber.
Context {W : Type} (env : Env W).

Local Notation "'handler'" := (post_api_analyze JSON_parse ToNumber).

Lemma run_bind_ret {A B : Type} (p : Prog A) (g : A -> B) (s : State W) :
  run env (bind p (fun x => Ret (g x))) s
  = (g (fst (fst (run env p s))), snd (fst (run env p s)), snd (run env p s)).
Proof.
  revert s. induction p as [a | X e k IH]; intros s; cbn.
  - reflexivity.
  - rewrite IH. reflexivity.
Qed.

Lemma run_handler (body : Body) (s : State W) :
  run env (handler body) s
  = (unwrap (fst (fst (run env (try_block JSON_parse ToNumber body) s))),
     snd (fst (run env (try_block JSON_parse ToNumber body) s)),
     snd (run env (try_block JSON_parse ToNumber body) s)).
Proof. unfold post_api_analyze. apply run_bind_ret. Qed.

(** Two texts that pass validation: both digests are taken, then the
    [Map] is consulted under the derived key. *)
Lemma run_accepted (r j : string) (s : State W) :
  (50 <= String.length r)%nat -> (50 <= String.length j)%nat ->
  run env (handler (mkBody (JStr r) (JStr j))) s
  = (unwrap (fst (fst (run env (resolve JSON_parse r j
                                  (sha256_hex (normalize r))
                                  (sha256_hex (normalize j))) s))),
     snd (fst (run env (resolve JSON_parse r j (sha256_hex (normalize r))
                                (sha256_hex (normalize j))) s)),
     CSha256Hex (normalize r) (sha256_hex (normalize r))
     :: CSha256Hex (normalize j) (sha256_hex (normalize j))
     :: snd (run env (resolve JSON_parse r j (sha256_hex (normalize r))
                              (sha256_hex (normalize j))) s)).
Proof.
  intros Hr Hj. rewrite run_handler, accepted by now apply passes_text.
  reflexivity.
Qed.

(** Whatever the body, the handler either stops before the [Map] (with
    no call, or with the one digest it took before [trim] failed), or
    the body holds two strings and the request goes on to [resolve]. *)
Lemma run_cases (body : Body) (s : State W) :
  (exists resp, run env (handler body) s = (resp, s, []))
  \/ (exists resp x, run env (handler body) s = (resp, s, [CSha256Hex x (sha256_hex x)]))
  \/ (exists r j,
        body = mkBody (JStr r) (JStr j)
        /\ run env (handler body) s
           = (unwrap (fst (fst (run env (resolve JSON_parse r j
                                           (sha256_hex (normalize r))
                                           (sha256_hex (normalize j))) s))),
              snd (fst (run env (resolve JSON_parse r j
                                         (sha256_hex (normalize r))
                                         (sha256_hex (normalize j))) s)),
              CSha256Hex (normalize r) (sha256_hex (normalize r))
              :: CSha256Hex (normalize j) (sha256_hex (normalize j))
              :: snd (run env (resolve JSON_parse r j
                                       (sha256_hex (normalize r))
                                       (sha256_hex (normalize j))) s))).
Proof.
  destruct body as [vr vj]. rewrite run_handler. unfold try_block.
  cbn [resumeText jobDescText].
  destruct (negb (Js.truthy vr) || negb (Js.truthy vj)).
  { left. eexists. reflexivity. }
  destruct (less_than_50 ToNumber (Js.dot_length vr)) as [[] | e].
  { left. eexists. reflexivity. }
  2: { left. eexists. reflexivity. }
  destruct (less_than_50 ToNumber (Js.dot_length vj)) as [[] | e].
  { left. eexists. reflexivity. }
  2: { left. eexists. reflexivity. }
  destruct vr as [| | | | r | |]; try (left; eexists; reflexivity).
  destruct vj as [| | | | j | |];
    try (right; left; do 2 eexists; reflexivity).
  right; right. exists r, j. split; reflexivity.
Qed.

(** The lookup that throws switches the insert off. *)
Lemma resolve_degraded (r j rh jh : string) (s : State W) :
  forall rh' jh' e,
    In (CFindUnique rh' jh' (Throw e)) (snd (run env (resolve JSON_parse r j rh jh) s)) ->
    forallb (fun c => negb (is_create c))
            (snd (run env (resolve JSON_parse r j rh jh) s)) = true
    /\ forall a,
        unwrap (fst (fst (run env (resolve JSON_parse r j rh jh) s))) = Json200 a ->
        cached a = Some false
        /\ exists t, last (snd (run env (resolve JSON_parse r j rh jh) s))
                     = Some (CMemorySet (cacheKey rh jh) (mkMemEntry a t)).
Proof.
  open_resolve. crunch; intros rh' jh' err H; split_in; try congruence;
    (split; [reflexivity |]); intros resp Hresp;
    try (now apply on_error_not_200 in Hresp);
    injection Hresp as <-; (split; [reflexivity | eexists; reflexivity]).
Qed.

(** C10.  When the lookup in the table throws, the same request never
    calls [create]: its list of calls holds no insert at all, whatever
    the store does afterwards.  If the request succeeds, its last call
    is the write of the response, marked [cached: false], into the
    [Map] under the key of the two digests. *)
Theorem degraded_lookup_skips_insert (body : Body) (s : State W) :
  forall rh jh e,
    In (CFindUnique rh jh (Throw e)) (snd (run env (handler body) s)) ->
    forallb (fun c => negb (is_create c)) (snd (run env (handler body) s)) = true
    /\ forall a,
        fst (fst (run env (handler body) s)) = Json200 a ->
        cached a = Some false
        /\ exists t, last (snd (run env (handler body) s))
                     = Some (CMemorySet (cacheKey rh jh) (mkMemEntry a t)).
Proof.
  intros rh jh e.
  destruct (run_cases body s) as [[resp E] | [(resp & x & E) | (r & j & _ & E)]];
    rewrite E; cbn [fst snd]; intros H; split_in.
  assert (Hk : rh = sha256_hex (normalize r) /\ jh = sha256_hex (normalize j)).
  { clear E. revert H. open_resolve. crunch; intros H; split_in;
      try congruence; injection H; auto. }
  destruct Hk as [-> ->].
  destruct (resolve_degraded _ _ _ _ _ _ _ _ H) as [Hc Hm].
  split; [exact Hc |].
  intros a Ha. destruct (Hm a Ha) as [Hca [t Ht]].
  split; [exact Hca |]. exists t. rewrite <- Ht.
  destruct (snd (run env (resolve JSON_parse r j _ _) s)) as [| c l] eqn:El;
    [cbn in Ht; discriminate | reflexivity].
Qed.

(** What [on_error] makes of an error rethrown by [analyzeGap]. *)
Lemma on_error_rethrow (e : JsError) :
  (err_class e = ZodErrorC ->
   on_error (rethrow e)
   = JsonError 422 "AI returned invalid data. Please try again."
               "AI_VALIDATION_ERROR")
  /\ (err_class e <> ZodErrorC ->
      JsString.includes "malformed" (message e) = false ->
      on_error (rethrow e)
      = JsonError 503
          "AI service is temporarily unavailable. Please try again later."
          "AI_SERVICE_ERROR")
  /\ (code_of (on_error (rethrow e)) = "AI_VALIDATION_ERROR"
      /\ status_of (on_error (rethrow e)) = 422
      \/ code_of (on_error (rethrow e)) = "AI_SERVICE_ERROR"
         /\ status_of (on_error (rethrow e)) = 503).
Proof.
  assert (Hother : err_class e <> ZodErrorC ->
                   rethrow e = mkError ErrorC ("AI Service Failed: " +:+ message e)).
  { unfold rethrow. destruct (err_class e); congruence. }
  assert (Hsvc : forall m, JsString.includes "malformed" m = false ->
                 on_error (mkError ErrorC ("AI Service Failed: " +:+ m))
                 = JsonError 503
                     "AI service is temporarily unavailable. Please try again later."
                     "AI_SERVICE_ERROR").
  { intros m Hm. unfold on_error. cbn [message].
    rewrite includes_malformed_failed, Hm.
    change ("AI Service Failed: " +:+ m) with ("AI Service Failed" +:+ (": " +:+ m)).
    now rewrite includes_prefix. }
  split; [| split].
  - intros H. unfold rethrow. rewrite H. reflexivity.
  - intros H Hm. rewrite Hother by exact H. now apply Hsvc.
  - destruct (err_class e) eqn:Hc;
      try (rewrite Hother by congruence;
           destruct (JsString.includes "malformed" (message e)) eqn:Hm;
           [ left; unfold on_error; cbn [message];
             rewrite includes_malformed_failed, Hm; split; reflexivity
           | right; rewrite Hsvc by exact Hm; split; reflexivity ]).
    left. unfold rethrow. rewrite Hc. split; reflexivity.
Qed.

Lemma resolve_compute_failure (r j rh jh : string) (s : State W) :
  forall a b resp err,
    In (CGenerateContent a b resp) (snd (run env (resolve JSON_parse r j rh jh) s)) ->
    read_response JSON_parse resp = Throw err ->
    fst (fst (run env (resolve JSON_parse r j rh jh) s)) = Throw (rethrow err)
    /\ forallb (fun c => negb (is_create c || is_memory_set c))
               (snd (run env (resolve JSON_parse r j rh jh) s)) = true.
Proof.
  open_resolve.
  crunch; intros a' b' resp err H Hread; split_in;
    match goal with
    | H : CGenerateContent _ _ _ = CGenerateContent _ _ _ |- _ =>
        injection H as _ _ H; rewrite H in *
    end;
    rewrite Hread in *; try discriminate;
    match goal with
    | H : Throw _ = Throw _ |- _ => injection H as <-
    end; split; reflexivity.
Qed.

(** The two [catch] blocks in a row: what the client is told of a
    failure of [analyzeGap]. *)
Lemma on_error_rethrow_told (e : JsError) :
  on_error (rethrow e)
  = if told_malformed e then ai_validation_error else ai_service_error.
Proof.
  destruct (on_error_rethrow e) as (Hzod & Hsvc & _).
  unfold told_malformed.
  destruct (err_class e) eqn:Hc;
    try (destruct (JsString.includes "malformed" (message e)) eqn:Hm;
         [ unfold rethrow, on_error; rewrite Hc; cbn [message];
           now rewrite includes_malformed_failed, Hm
         | apply Hsvc; [congruence | reflexivity] ]).
  now apply Hzod.
Qed.

(** C8, as the handler has it.  When [analyzeGap] fails (the model
    could not be reached, gave no text, gave text that is not JSON, or
    gave JSON of the wrong shape), the request fails with it and has
    written nothing, neither a row nor an entry of the [Map].  The
    client is told one of two codes, and the words of the failure
    decide which: 422 AI_VALIDATION_ERROR when the answer was JSON of
    the wrong shape or the failure's own message holds "malformed", 503
    AI_SERVICE_ERROR in every other case.  JSON of the wrong shape is
    always told as 422, an answer without text always as 503; an
    answer that is not JSON and a model out of reach are told alike,
    by the message of the error. *)
Theorem compute_failure_caches_nothing (body : Body) (s : State W) :
  forall a b resp err,
    In (CGenerateContent a b resp) (snd (run env (handler body) s)) ->
    read_response JSON_parse resp = Throw err ->
    let response := fst (fst (run env (handler body) s)) in
    response
    = (if told_malformed err then ai_validation_error else ai_service_error)
    /\ forallb (fun c => negb (is_create c || is_memory_set c))
               (snd (run env (handler body) s)) = true
    /\ (forall text v,
           resp = Ok (Some text) ->
           JSON_parse (Fence.clean text) = Ok v ->
           Zod.AnalysisSchema v = None ->
           response = ai_validation_error)
    /\ (resp = Ok None -> response = ai_service_error)
    /\ (resp = Throw err
        \/ (exists text,
               resp = Ok (Some text)
               /\ JSON_parse (Fence.clean text) = Throw err) ->
        err_class err <> ZodErrorC ->
        response
        = if JsString.includes "malformed" (message err)
          then ai_validation_error else ai_service_error)
    /\ code_of ai_validation_error <> code_of ai_service_error.
Proof.
  intros a b resp err.
  destruct (run_cases body s) as [[x E] | [(x & y & E) | (r & j & _ & E)]];
    rewrite E; cbn [fst snd]; intros H Hread; split_in.
  destruct (resolve_compute_failure _ _ _ _ _ _ _ _ _ H Hread) as [Hout Hcalls].
  rewrite Hout. cbn [unwrap]. rewrite on_error_rethrow_told.
  split; [reflexivity |]. split; [exact Hcalls |].
  split; [| split; [| split; [| discriminate]]].
  - intros text v -> Hparse Hshape.
    cbn [read_response] in Hread. rewrite Hparse, Hshape in Hread.
    injection Hread as <-. reflexivity.
  - intros ->. cbn [read_response] in Hread. injection Hread as <-.
    reflexivity.
  - intros _ Hc. unfold told_malformed.
    destruct (err_class err); congruence.
Qed.

Lemma resolve_failed_insert (r j rh jh : string) (s : State W) :
  forall d err,
    In (CCreate d (Throw err)) (snd (run env (resolve JSON_parse r j rh jh) s)) ->
    exists a t,
      fst (fst (run env (resolve JSON_parse r j rh jh) s)) = Ok (Json200 a)
      /\ cached a = Some false
      /\ In (CRandomUUID (id a)) (snd (run env (resolve JSON_parse r j rh jh) s))
      /\ In (CIsoNow (createdAt a)) (snd (run env (resolve JSON_parse r j rh jh) s))
      /\ mkCreateData (resumeHash a) (jobDescHash a) (missingSkills a)
                      (learningSteps a) (interviewQuestions a) = d
      /\ last (snd (run env (resolve JSON_parse r j rh jh) s))
         = Some (CMemorySet (cacheKey rh jh) (mkMemEntry a t))
      /\ List.length (filter is_find (snd (run env (resolve JSON_parse r j rh jh) s)))
         = 1%nat.
Proof.
  open_resolve.
  crunch; intros d err H; split_in;
    match goal with
    | H : CCreate _ _ = CCreate _ _ |- _ => injection H as <- H
    end; try congruence;
    do 2 eexists; repeat split; try reflexivity; cbn [id createdAt In]; tauto.
Qed.

(** C2, as the handler has it.  When [create] throws, be it for the
    unique key or for anything else, nothing of it reaches the client:
    the response is 200 with the analysis the handler built itself,
    under the identifier it drew from [randomUUID] and its own
    [createdAt], marked [cached: false], holding the data it tried to
    insert.  That same object is the last thing written, into the [Map];
    the table is looked up once in the whole request and not read
    again. *)
Theorem failed_insert_is_absorbed (body : Body) (s : State W) :
  forall d err,
    In (CCreate d (Throw err)) (snd (run env (handler body) s)) ->
    exists a t,
      fst (fst (run env (handler body) s)) = Json200 a
      /\ cached a = Some false
      /\ In (CRandomUUID (id a)) (snd (run env (handler body) s))
      /\ In (CIsoNow (createdAt a)) (snd (run env (handler body) s))
      /\ mkCreateData (resumeHash a) (jobDescHash a) (missingSkills a)
                      (learningSteps a) (interviewQuestions a) = d
      /\ last (snd (run env (handler body) s))
         = Some (CMemorySet (cacheKey (resumeHash a) (jobDescHash a))
                            (mkMemEntry a t))
      /\ List.length (filter is_find (snd (run env (handler body) s))) = 1%nat.
Proof.
  intros d err.
  destruct (run_cases body s) as [[x E] | [(x & y & E) | (r & j & _ & E)]];
    rewrite E; cbn [fst snd]; intros H; split_in.
  assert (Hk : cd_resumeHash d = sha256_hex (normalize r)
               /\ cd_jobDescHash d = sha256_hex (normalize j)).
  { clear E. revert H. open_resolve. crunch; intros H; split_in;
      injection H as <- _; split; reflexivity. }
  destruct (resolve_failed_insert _ _ _ _ _ _ _ H)
    as (a & t & Hout & Hc & Hu & Hi & Hd & Hl & Hf).
  exists a, t. rewrite Hout. cbn [unwrap].
  rewrite <- Hd in Hk. cbn [cd_resumeHash cd_jobDescHash] in Hk.
  destruct Hk as [Hk1 Hk2].
  assert (Hkey : cacheKey (resumeHash a) (jobDescHash a)
                 = cacheKey (sha256_hex (normalize r)) (sha256_hex (normalize j)))
    by now rewrite Hk1, Hk2.
  repeat split; try assumption.
  - right; right; exact Hu.
  - right; right; exact Hi.
  - rewrite Hkey.
    destruct (snd (run env (resolve JSON_parse r j _ _) s)) eqn:El;
      [discriminate | exact Hl].
Qed.

Lemma resolve_memory (r j rh jh : string) (s : State W) :
  ((exists entry,
       memoryCache s !! cacheKey rh jh = Some entry
       /\ fst (date_now env (world s)) - timestamp entry < CACHE_TTL)
   <-> served_from_memory (snd (run env (resolve JSON_parse r j rh jh) s)) = true)
  /\ (forall entry,
         memoryCache s !! cacheKey rh jh = Some entry ->
         fst (date_now env (world s)) - timestamp entry < CACHE_TTL ->
         fst (fst (run env (resolve JSON_parse r j rh jh) s))
         = Ok (Json200 (with_cached (data entry) true)))
  /\ (forall entry,
         memoryCache s !! cacheKey rh jh = Some entry ->
         CACHE_TTL <= fst (date_now env (world s)) - timestamp entry ->
         exists answer,
           In (CFindUnique rh jh answer)
              (snd (run env (resolve JSON_parse r j rh jh) s))
           /\ (answer = Ok None ->
               exists reply,
                 In (CGenerateContent (JsString.slice0 8000 r)
                                      (JsString.slice0 8000 j) reply)
                    (snd (run env (resolve JSON_parse r j rh jh) s)))).
Proof.
  open_resolve. cbn -[Z.ltb CACHE_TTL].
  destruct (memoryCache s !! cacheKey rh jh) as [entry |] eqn:Hm.
  2: { split; [| split; intros; discriminate].
       split; [intros (? & ? & _); discriminate |].
       crunch; discriminate. }
  cbn -[Z.ltb CACHE_TTL].
  destruct (fst (date_now env (world s)) - timestamp entry <? CACHE_TTL) eqn:Hfresh.
  - apply Z.ltb_lt in Hfresh. split; [| split].
    + split; [reflexivity |]. intros _. exists entry. now split.
    + intros ? [= <-] _. reflexivity.
    + intros ? [= <-] ?. lia.
  - apply Z.ltb_ge in Hfresh. split; [| split].
    + split; [intros (? & [= <-] & ?); lia |].
      crunch; discriminate.
    + intros ? [= <-] ?. lia.
    + intros ? [= <-] _.
      exists (fst (find_unique env rh jh
                     (mkState (memoryCache s) (snd (date_now env (world s)))))).
      split; [right; right; left; reflexivity |].
      intros E. cbn -[Z.ltb CACHE_TTL]. rewrite E. cbn.
      eexists. do 3 right. left. reflexivity.
Qed.


(** C9, as the handler has it.  When both fields get through the two
    checks (each is truthy and its [length] does not compare below 50)
    and one of them is not a string, the request is answered 500 with
    the code INTERNAL_ERROR: [trim] is not a function of that value.
    Nothing was looked up or stored; at most the digest of [resumeText]
    was taken, when that field was the string. *)
Theorem non_text_fails_at_trim (body : Body) (s : State W) :
  passes ToNumber (resumeText body) ->
  passes ToNumber (jobDescText body) ->
  is_string (resumeText body) && is_string (jobDescText body) = false ->
  let out := run env (handler body) s in
  fst (fst out)
  = JsonError 500 "Something went wrong processing your request." "INTERNAL_ERROR"
  /\ snd (fst out) = s
  /\ (snd out = [] \/ exists x, snd out = [CSha256Hex x (sha256_hex x)]).
Proof.
  intros Pr Pj Hs out. subst out.
  rewrite run_handler, accepted by assumption.
  destruct body as [vr vj]. cbn [resumeText jobDescText] in *.
  unfold hash_and_resolve. cbn [resumeText jobDescText].
  destruct vr; try (repeat split; left; reflexivity);
    destruct vj; try discriminate;
    (repeat split; right; eexists; reflexivity).
Qed.

End Handler.

(** ** The handler in the world of one process and one store *)

Section StoreModel.

Variable JSON_parse : string -> Result JsVal.
Variable ToNumber : JsVal -> Result JsNumber.

Local Notation "'handler'" := (post_api_analyze JSON_parse ToNumber).

Lemma commit_rival_next_op (w : World) :
  Store.commit_rival (Store.next_op w (table w) (rows_made w))
  = Store.commit_rival w.
Proof. reflexivity. Qed.

(** The computing path, from a state whose [Map] has no fresh entry and
    whose table has nothing to offer. *)
Lemma first_call (r j : string) (mem : gmap string MemEntry) (w : World)
      (reply : Result (option string)) (rest : list (Result (option string)))
      (ai : AiResult) :
  (50 <= String.length r)%nat -> (50 <= String.length j)%nat ->
  (forall entry, mem !! derived_key r j = Some entry ->
                 CACHE_TTL <= clock w - timestamp entry) ->
  Store.down w = true
  \/ table w !! (sha256_hex (normalize r), sha256_hex (normalize j)) = None ->
  replies w = reply :: rest ->
  read_response JSON_parse reply = Ok ai ->
  exists a s1 calls,
    run Store.env (handler (mkBody (JStr r) (JStr j))) (mkState mem w)
    = (Json200 a, s1, calls)
    /\ cached a = Some false
    /\ missingSkills a = ai_missingSkills ai
    /\ learningSteps a = ai_learningSteps ai
    /\ interviewQuestions a = ai_interviewQuestions ai
    /\ memoryCache s1 = <[derived_key r j := mkMemEntry a (clock w)]> mem
    /\ clock (world s1) = clock w
    /\ existsb is_generate calls = true
    /\ (Store.down w = true ->
        forallb (fun c => negb (is_create c)) calls = true
        /\ table (world s1) = Store.commit_rival w).
Proof.
  intros Hr Hj Hmem Hdb Hreply Hai.
  rewrite run_accepted by assumption.
  unfold resolve, lookup_then_compute, compute_and_store, analyzeGap, bindE.
  unfold derived_key in *. go.
  assert (Hlookup :
    forall k : option MemEntry -> Prog (Result Response),
      (forall entry, mem !! cacheKey (sha256_hex (normalize r))
                                   (sha256_hex (normalize j)) = Some entry ->
                     (clock w - timestamp entry <? CACHE_TTL) = false)).
  { intros _ entry H. apply Z.ltb_ge. now apply Hmem. }
  specialize (Hlookup (fun _ => Ret (Ok validation_required))).
  destruct (mem !! cacheKey (sha256_hex (normalize r)) (sha256_hex (normalize j)))
    as [entry |] eqn:Hm; go;
    [rewrite (Hlookup entry eq_refl); go |];
    unfold Store.findUnique; go;
    (destruct (Store.down w) eqn:Hd; go;
     [| destruct Hdb as [Hdb | Hdb]; [discriminate | rewrite Hdb; go]]);
    rewrite Hreply; go; rewrite Hai; go.
  all: try (unfold Store.create; go; rewrite ?commit_rival_next_op;
            match goal with
            | |- context [if Store.down ?x then _ else _] =>
                destruct (Store.down x) eqn:Hd2
            end; go;
            [| destruct (Store.commit_rival w !! _) eqn:Hrow; go]).
  all: do 3 eexists; repeat split; try reflexivity; discriminate.
Qed.

(** A later request for the same texts, while the entry is fresh. *)
Lemma hit_later (r j : string) (s1 : State World) (entry : MemEntry) (dt : Z)
      (down : list bool) (answers : list (Result (option string))) :
  (50 <= String.length r)%nat -> (50 <= String.length j)%nat ->
  memoryCache s1 !! derived_key r j = Some entry ->
  clock (world s1) + dt - timestamp entry < CACHE_TTL ->
  fst (fst (run Store.env (handler (mkBody (JStr r) (JStr j)))
                (Store.later dt down answers s1)))
  = Json200 (with_cached (data entry) true)
  /\ served_from_memory
       (snd (run Store.env (handler (mkBody (JStr r) (JStr j)))
                 (Store.later dt down answers s1))) = true.
Proof.
  intros Hr Hj Hm Hfresh. rewrite run_accepted by assumption. cbn [fst snd].
  destruct (resolve_memory JSON_parse Store.env r j (sha256_hex (normalize r))
              (sha256_hex (normalize j)) (Store.later dt down answers s1))
    as (Hiff & Hhit & _).
  split.
  - rewrite (Hhit entry); [reflexivity | exact Hm | exact Hfresh].
  - apply Hiff. exists entry. split; [exact Hm | exact Hfresh].
Qed.

(** C1.  Two texts of at least 50 characters each, a [Map] without a
    fresh entry for them, a table that has no row for them or cannot be
    reached, and a model that answers well: the first request is
    answered 200 with [cached: false] and the analysis of the model.
    The same request again, before the time to live has passed, is
    answered 200 with [cached: true] and the same [id], [createdAt],
    [missingSkills], [learningSteps] and [interviewQuestions]; it ends at
    the [Map], so the model is not asked a second time. *)
Theorem second_call_is_cached (r j : string) (mem : gmap string MemEntry)
        (w : World) (reply : Result (option string))
        (rest : list (Result (option string))) (ai : AiResult) :
  (50 <= String.length r)%nat -> (50 <= String.length j)%nat ->
  (forall entry, mem !! derived_key r j = Some entry ->
                 CACHE_TTL <= clock w - timestamp entry) ->
  Store.down w = true
  \/ table w !! (sha256_hex (normalize r), sha256_hex (normalize j)) = None ->
  replies w = reply :: rest ->
  read_response JSON_parse reply = Ok ai ->
  let body := mkBody (JStr r) (JStr j) in
  let first := run Store.env (handler body) (mkState mem w) in
  exists a,
    fst (fst first) = Json200 a
    /\ cached a = Some false
    /\ missingSkills a = ai_missingSkills ai
    /\ learningSteps a = ai_learningSteps ai
    /\ interviewQuestions a = ai_interviewQuestions ai
    /\ forall dt down answers,
        dt < CACHE_TTL ->
        let second := run Store.env (handler body)
                          (Store.later dt down answers (snd (fst first))) in
        exists b,
          fst (fst second) = Json200 b
          /\ cached b = Some true
          /\ same_payload a b
          /\ served_from_memory (snd second) = true.
Proof.
  intros Hr Hj Hmem Hdb Hreply Hai body first. subst body first.
  destruct (first_call r j mem w reply rest ai Hr Hj Hmem Hdb Hreply Hai)
    as (a & s1 & calls & Hrun & Hc & Hms & Hls & Hiq & Hmap & Hclock & _).
  rewrite Hrun. cbn [fst snd].
  exists a. split; [reflexivity |]. do 4 (split; [assumption |]).
  intros dt down answers Hdt.
  destruct (hit_later r j s1 (mkMemEntry a (clock w)) dt down answers Hr Hj)
    as [Hresp Hserved].
  { rewrite Hmap. apply lookup_insert_eq. }
  { cbn [timestamp]. lia. }
  exists (with_cached a true). cbn zeta. rewrite Hresp.
  repeat split; exact Hserved.
Qed.

(** C3, as the handler has it.  With the table out of reach at the
    lookup, the request still succeeds when the model answers well: it
    is answered 200 with [cached: false], makes no insert, and leaves
    the table as it was but for what a rival committed.  The response
    went into the [Map], though.  So the same request after the store is
    back is, within the time to live, answered from the [Map] with
    [cached: true], without asking the model; only when the entry has
    reached the time to live and the table still has no row for the key
    is the model asked afresh, and the answer is again 200 with
    [cached: false]. *)
Theorem degraded_then_recovered (r j : string) (mem : gmap string MemEntry)
        (w : World) (reply : Result (option string))
        (rest : list (Result (option string))) (ai : AiResult) :
  (50 <= String.length r)%nat -> (50 <= String.length j)%nat ->
  (forall entry, mem !! derived_key r j = Some entry ->
                 CACHE_TTL <= clock w - timestamp entry) ->
  Store.down w = true ->
  replies w = reply :: rest ->
  read_response JSON_parse reply = Ok ai ->
  let body := mkBody (JStr r) (JStr j) in
  let first := run Store.env (handler body) (mkState mem w) in
  exists a,
    fst (fst first) = Json200 a
    /\ cached a = Some false
    /\ forallb (fun c => negb (is_create c)) (snd first) = true
    /\ table (world (snd (fst first))) = Store.commit_rival w
    /\ forall dt answers,
        let second := run Store.env (handler body)
                          (Store.later dt [] answers (snd (fst first))) in
        (dt < CACHE_TTL ->
         fst (fst second) = Json200 (with_cached a true)
         /\ served_from_memory (snd second) = true)
        /\ (CACHE_TTL <= dt ->
            Store.commit_rival w
              !! (sha256_hex (normalize r), sha256_hex (normalize j)) = None ->
            forall reply2 rest2 ai2,
              answers = reply2 :: rest2 ->
              read_response JSON_parse reply2 = Ok ai2 ->
              exists b,
                fst (fst second) = Json200 b
                /\ cached b = Some false
                /\ missingSkills b = ai_missingSkills ai2
                /\ existsb is_generate (snd second) = true).
Proof.
  intros Hr Hj Hmem Hdown Hreply Hai body first. subst body first.
  destruct (first_call r j mem w reply rest ai Hr Hj Hmem (or_introl Hdown)
                       Hreply Hai)
    as (a & s1 & calls & Hrun & Hc & _ & _ & _ & Hmap & Hclock & _ & Hdeg).
  destruct (Hdeg Hdown) as [Hnocreate Htable].
  rewrite Hrun. cbn [fst snd].
  exists a. split; [reflexivity |]. do 3 (split; [assumption |]).
  intros dt answers. cbn zeta. split.
  - intros Hdt.
    apply (hit_later r j s1 (mkMemEntry a (clock w)) dt [] answers Hr Hj).
    + rewrite Hmap. apply lookup_insert_eq.
    + cbn [timestamp]. lia.
  - intros Hdt Hrow reply2 rest2 ai2 -> Hai2.
    unfold Store.later.
    edestruct (first_call r j (memoryCache s1)) with (reply := reply2)
      as (b & s2 & calls2 & Hrun2 & Hc2 & Hms2 & _ & _ & _ & _ & Hgen & _);
      [exact Hr | exact Hj | | | | exact Hai2 | ].
    4: { rewrite Hrun2. cbn [fst snd]. exists b. repeat split; assumption. }
    + intros entry. rewrite Hmap, lookup_insert_eq. intros [= <-].
      cbn [clock timestamp]. lia.
    + right. cbn [table]. rewrite Htable. exact Hrow.
    + reflexivity.
Qed.

End StoreModel.

(** ** Strings *)

Module StringFacts.

Lemma app_nil_r (s : string) : s +:+ "" = s.
Proof. induction s as [| c s IH]; [reflexivity |]. change (String c s +:+ "") with (String c (s +:+ "")). now rewrite IH. Qed.

Lemma app_cons (c : ascii) (s t : string) : String c s +:+ t = String c (s +:+ t).
Proof. reflexivity. Qed.

Lemma app_assoc (s t u : string) : (s +:+ t) +:+ u = s +:+ (t +:+ u).
Proof.
  induction s as [| c s IH]; [reflexivity |].
  rewrite !app_cons. now rewrite IH.
Qed.





End StringFacts.

(** ** Normalization *)




Lemma trimEnd_ink_nonempty (post : string) :
  has_ink post = true -> JsString.trimEnd post <> "".
Proof.
  unfold has_ink. induction post as [| c post IH]; [discriminate |].
  cbn [some JsString.trimEnd].
  destruct (JsString.trimEnd post) eqn:E; [| discriminate].
  destruct (JsString.is_white c); cbn [negb orb]; [| discriminate].
  intros H. now apply IH in H.
Qed.

Lemma trimEnd_ink (u post : string) :
  has_ink post = true ->
  JsString.trimEnd (u +:+ post) = u +:+ JsString.trimEnd post.
Proof.
  intros H. induction u as [| c u IH]; [reflexivity |].
  rewrite !StringFacts.app_cons. cbn [JsString.trimEnd]. rewrite IH.
  destruct (u +:+ JsString.trimEnd post) eqn:E; [| reflexivity].
  destruct u; [| discriminate].
  now apply trimEnd_ink_nonempty in H.
Qed.

Lemma has_ink_trimStart (pre : string) :
  has_ink pre = true -> has_ink (JsString.trimStart pre) = true.
Proof.
  unfold has_ink. induction pre as [| c pre IH]; [discriminate |].
  cbn [some JsString.trimStart].
  destruct (JsString.is_white c) eqn:E; cbn [negb orb].
  - exact IH.
  - intros _. cbn [some]. now rewrite E.
Qed.

Lemma has_ink_app_r (u post : string) :
  has_ink post = true -> has_ink (u +:+ post) = true.
Proof.
  unfold has_ink. intros H. induction u as [| c u IH]; [exact H |].
  rewrite StringFacts.app_cons. cbn [some]. rewrite IH. apply orb_true_r.
Qed.





Lemma is_white_lower (c : ascii) :
  JsString.is_white (JsString.lower c) = JsString.is_white c.
Proof. destruct c as [[] [] [] [] [] [] [] []]; vm_compute; reflexivity. Qed.

Lemma lower_idem (c : ascii) :
  JsString.lower (JsString.lower c) = JsString.lower c.
Proof. destruct c as [[] [] [] [] [] [] [] []]; vm_compute; reflexivity. Qed.

Lemma toLowerCase_idem (s : string) :
  JsString.toLowerCase (JsString.toLowerCase s) = JsString.toLowerCase s.
Proof.
  induction s as [| c s IH]; [reflexivity |].
  cbn [JsString.toLowerCase]. now rewrite lower_idem, IH.
Qed.

Lemma trimStart_idem (s : string) :
  JsString.trimStart (JsString.trimStart s) = JsString.trimStart s.
Proof.
  induction s as [| c s IH]; [reflexivity |].
  cbn [JsString.trimStart]. destruct (JsString.is_white c) eqn:E; [exact IH |].
  cbn [JsString.trimStart]. now rewrite E.
Qed.

Lemma trimEnd_idem (s : string) :
  JsString.trimEnd (JsString.trimEnd s) = JsString.trimEnd s.
Proof.
  induction s as [| c s IH]; [reflexivity |].
  cbn [JsString.trimEnd].
  destruct (JsString.trimEnd s) as [| d t] eqn:E.
  - destruct (JsString.is_white c) eqn:W; [reflexivity |].
    cbn [JsString.trimEnd]. now rewrite W.
  - cbn [JsString.trimEnd]. cbn [JsString.trimEnd] in IH.
    destruct (JsString.trimEnd t) eqn:Et.
    + destruct (JsString.is_white d); [discriminate IH | now rewrite IH].
    + now rewrite IH.
Qed.

(** Trimming the end leaves a start without white space alone. *)
Lemma trimStart_trimEnd (s : string) :
  JsString.trimStart s = s ->
  JsString.trimStart (JsString.trimEnd s) = JsString.trimEnd s.
Proof.
  destruct s as [| c s]; [reflexivity |].
  cbn [JsString.trimStart JsString.trimEnd].
  destruct (JsString.is_white c) eqn:W.
  - intros H. apply (f_equal String.length) in H.
    assert (L : forall x, (String.length (JsString.trimStart x) <= String.length x)%nat).
    { induction x as [| a x IHx]; [reflexivity |].
      cbn [JsString.trimStart]. destruct (JsString.is_white a); cbn [String.length]; lia. }
    specialize (L s). cbn [String.length] in H. lia.
  - intros _. destruct (JsString.trimEnd s);
      cbn [JsString.trimStart]; now rewrite W.
Qed.

Lemma trim_idem (s : string) :
  JsString.trim (JsString.trim s) = JsString.trim s.
Proof.
  unfold JsString.trim.
  rewrite (trimStart_trimEnd (JsString.trimStart s)) by apply trimStart_idem.
  apply trimEnd_idem.
Qed.

Lemma trimStart_lower (s : string) :
  JsString.trimStart (JsString.toLowerCase s)
  = JsString.toLowerCase (JsString.trimStart s).
Proof.
  induction s as [| c s IH]; [reflexivity |].
  cbn [JsString.toLowerCase JsString.trimStart]. rewrite is_white_lower.
  destruct (JsString.is_white c); [exact IH | reflexivity].
Qed.

Lemma trimEnd_lower (s : string) :
  JsString.trimEnd (JsString.toLowerCase s)
  = JsString.toLowerCase (JsString.trimEnd s).
Proof.
  induction s as [| c s IH]; [reflexivity |].
  cbn [JsString.toLowerCase JsString.trimEnd]. rewrite IH, is_white_lower.
  destruct (JsString.trimEnd s); cbn [JsString.toLowerCase];
    [destruct (JsString.is_white c) |]; reflexivity.
Qed.

Lemma trim_lower (s : string) :
  JsString.trim (JsString.toLowerCase s) = JsString.toLowerCase (JsString.trim s).
Proof. unfold JsString.trim. now rewrite trimStart_lower, trimEnd_lower. Qed.

Lemma normalize_idem (s : string) : normalize (normalize s) = normalize s.
Proof.
  unfold normalize. now rewrite trim_lower, trim_idem, toLowerCase_idem.
Qed.

Lemma trimStart_blank (s : string) :
  every JsString.is_white s = true -> JsString.trimStart s = "".
Proof.
  induction s as [| c s IH]; [reflexivity |].
  cbn [every JsString.trimStart]. intros H.
  apply andb_true_iff in H as [-> H]. now apply IH.
Qed.

Lemma normalize_blank (s : string) :
  every JsString.is_white s = true -> normalize s = "".
Proof.
  intros H. unfold normalize, JsString.trim. now rewrite trimStart_blank.
Qed.






(** ** The key *)




(** ** Key derivation *)

Section Keys.

Variable JSON_parse : string -> Result JsVal.
Variable ToNumber : JsVal -> Result JsNumber.
Context {W : Type} (env : Env W).

(** The key of lines 63 to 65 is the one the handler goes to the [Map]
    with, after it took the two digests in the order resume, job. *)
Lemma handler_looks_up_derived_key (r j : string) (s : State W) :
  (50 <= String.length r)%nat -> (50 <= String.length j)%nat ->
  exists rest,
    snd (run env (post_api_analyze JSON_parse ToNumber (mkBody (JStr r) (JStr j))) s)
    = CSha256Hex (normalize r) (sha256_hex (normalize r))
      :: CSha256Hex (normalize j) (sha256_hex (normalize j))
      :: CMemoryGet (derived_key r j) (memoryCache s !! derived_key r j)
      :: rest.
Proof.
  intros Hr Hj. rewrite (run_accepted JSON_parse ToNumber) by assumption.
  cbn [snd]. unfold resolve, derived_key. cbn [run perform observe fst snd bind call].
  eexists. reflexivity.
Qed.

End Keys.



(** ** The key of a string beyond Latin-1 *)

Lemma code_below_256 (c : ascii) : 0 <= JsString.code c < 256.
Proof. destruct c as [[] [] [] [] [] [] [] []]; vm_compute; split; congruence. Qed.

Lemma of_code_code (c : ascii) : JsString.of_code (JsString.code c) = c.
Proof.
  unfold JsString.of_code, JsString.code.
  now rewrite Nat2Z.id, ascii_nat_embedding.
Qed.

Lemma of_string_cons (c : ascii) (s : string) :
  Utf16.of_string (String c s) = JsString.code c :: Utf16.of_string s.
Proof. reflexivity. Qed.

Lemma is_white_code (c : ascii) :
  Utf16.is_white (JsString.code c) = JsString.is_white c.
Proof. destruct c as [[] [] [] [] [] [] [] []]; vm_compute; reflexivity. Qed.

(** On a string of the Latin-1 range the two encodings are the same. *)
Lemma utf8_of_string (s : string) :
  Utf16.utf8 (Utf16.of_string s) = JsString.utf8 s.
Proof.
  induction s as [| c s IH]; [reflexivity |].
  rewrite of_string_cons. cbn [Utf16.utf8 JsString.utf8]. rewrite IH.
  pose proof (code_below_256 c) as Hc.
  destruct (JsString.code c <? 128) eqn:E; [reflexivity |].
  assert ((JsString.code c <? 2048) = true) as -> by (apply Z.ltb_lt; lia).
  reflexivity.
Qed.

Lemma trimStart_of_string (s : string) :
  Utf16.trimStart (Utf16.of_string s) = Utf16.of_string (JsString.trimStart s).
Proof.
  induction s as [| c s IH]; [reflexivity |].
  rewrite of_string_cons. cbn [Utf16.trimStart JsString.trimStart].
  rewrite is_white_code. destruct (JsString.is_white c); [exact IH | reflexivity].
Qed.

Lemma trimEnd_of_string (s : string) :
  Utf16.trimEnd (Utf16.of_string s) = Utf16.of_string (JsString.trimEnd s).
Proof.
  induction s as [| c s IH]; [reflexivity |].
  rewrite of_string_cons. cbn [Utf16.trimEnd JsString.trimEnd].
  rewrite IH, is_white_code.
  destruct (JsString.trimEnd s); [destruct (JsString.is_white c) |]; reflexivity.
Qed.

Lemma toLowerCase_of_string (s : string) :
  Utf16.toLowerCase (Utf16.of_string s)
  = Some (Utf16.of_string (JsString.toLowerCase s)).
Proof.
  induction s as [| c s IH]; [reflexivity |].
  rewrite of_string_cons. cbn [Utf16.toLowerCase JsString.toLowerCase].
  pose proof (code_below_256 c) as Hc.
  assert ((JsString.code c <? 256) = true) as -> by (apply Z.ltb_lt; lia).
  now rewrite IH, of_code_code.
Qed.

Lemma normalize_of_string (s : string) :
  Utf16.normalize (Utf16.of_string s) = Some (Utf16.of_string (normalize s)).
Proof.
  unfold Utf16.normalize, Utf16.trim, normalize, JsString.trim.
  now rewrite trimStart_of_string, trimEnd_of_string, toLowerCase_of_string.
Qed.

(** On texts of the Latin-1 range the key is the one of the handler. *)
Lemma derived_key_of_string (r j : string) :
  Utf16.derived_key (Utf16.of_string r) (Utf16.of_string j)
  = Some (derived_key r j).
Proof.
  unfold Utf16.derived_key, Utf16.sha256_hex, derived_key, sha256_hex.
  now rewrite !normalize_of_string, !utf8_of_string.
Qed.


(** ** The statements on the fixtures *)

Lemma demo_reply_good : read_response Demo.JSON_parse Demo.reply = Ok Demo.analysis.
Proof. vm_compute. reflexivity. Qed.

Lemma demo_lengths :
  (50 <= String.length Demo.resume)%nat /\ (50 <= String.length Demo.job)%nat.
Proof. split; vm_compute; lia. Qed.

Lemma demo_cold (w : World) :
  forall entry : MemEntry,
    (∅ : gmap string MemEntry) !! derived_key Demo.resume Demo.job = Some entry ->
    CACHE_TTL <= clock w - timestamp entry.
Proof. intros entry H. rewrite lookup_empty in H. discriminate H. Qed.

(** C4 as stated fails.  The job description has 15 characters, and
    the request is not turned down for it: [resumeText] is an object
    whose [length] is an object that cannot be converted to a number, the
    comparison of line 55 throws before the job description is looked
    at, and the outer [catch] answers 500 INTERNAL_ERROR. *)
Lemma short_text_beside_odd_length :
  let body := mkBody Sample.odd_length (JStr "React developer") in
  let s := Demo.start [] [Demo.reply] None in
  too_short (jobDescText body)
  /\ run Store.env (post_api_analyze Demo.JSON_parse Sample.ToNumber body) s
     = (internal_error, s, [])
  /\ code_of internal_error <> "VALIDATION_ERROR".
Proof.
  cbv zeta. split; [| split].
  - eexists. split; [reflexivity | vm_compute; lia].
  - vm_compute. reflexivity.
  - discriminate.
Qed.

(** C4 on a resume of 40 characters, beside a job description and
    beside a number; and on the object whose [length] cannot be
    converted, beside a job description of 15 characters. *)
Lemma validation_precedes_hashing_witness :
  let s := Demo.start [] [Demo.reply] None in
  let answer body :=
    run Store.env (post_api_analyze Demo.JSON_parse Sample.ToNumber body) s in
  let short := mkBody (JStr Demo.forty) (JStr Demo.job) in
  let number := mkBody (JStr Demo.forty) (JNum (Finite (inject_Z 12345))) in
  let odd := mkBody Sample.odd_length (JStr "React developer") in
  too_short (resumeText short)
  /\ (status_of (fst (fst (answer short))) = 400
      /\ code_of (fst (fst (answer short))) = "VALIDATION_ERROR")
  /\ snd (fst (answer short)) = s /\ snd (answer short) = []
  /\ (status_of (fst (fst (answer number))) = 400
      /\ code_of (fst (fst (answer number))) = "VALIDATION_ERROR")
  /\ snd (answer number) = []
  /\ too_short (jobDescText odd)
  /\ fst (fst (answer odd)) = internal_error
  /\ snd (fst (answer odd)) = s /\ snd (answer odd) = [].
Proof.
  cbv beta zeta.
  assert (Hshort : too_short (JStr Demo.forty)).
  { eexists. split; [reflexivity | vm_compute; lia]. }
  assert (Hjob : too_short (JStr "React developer")).
  { eexists. split; [reflexivity | vm_compute; lia]. }
  destruct (validation_precedes_hashing Demo.JSON_parse Sample.ToNumber Store.env
              (mkBody (JStr Demo.forty) (JStr Demo.job))
              (Demo.start [] [Demo.reply] None)
              (or_intror (or_intror (or_introl (too_short_below_50 _ Hshort)))))
    as (Hs1 & Hc1 & _ & Hv1 & _).
  destruct (validation_precedes_hashing Demo.JSON_parse Sample.ToNumber Store.env
              (mkBody (JStr Demo.forty) (JNum (Finite (inject_Z 12345))))
              (Demo.start [] [Demo.reply] None)
              (or_intror (or_intror (or_introl (too_short_below_50 _ Hshort)))))
    as (_ & Hc2 & _ & Hv2 & _).
  destruct (validation_precedes_hashing Demo.JSON_parse Sample.ToNumber Store.env
              (mkBody Sample.odd_length (JStr "React developer"))
              (Demo.start [] [Demo.reply] None)
              (or_intror (or_intror (or_intror (too_short_below_50 _ Hjob)))))
    as (Hs3 & Hc3 & _ & _ & He3).
  split; [exact Hshort |].
  split; [apply Hv1; right; right; left; intros props; discriminate |].
  split; [exact Hs1 |]. split; [exact Hc1 |].
  split; [apply Hv2; right; right; left; intros props; discriminate |].
  split; [exact Hc2 |]. split; [exact Hjob |].
  split; [| split; [exact Hs3 | exact Hc3]].
  destruct (He3 (mkError TypeErrorC "Cannot convert object to primitive value")
                eq_refl eq_refl eq_refl) as [E _].
  rewrite E. reflexivity.
Defined.

(** C1 on the texts of [test-ai.js], from a process that just started. *)
Lemma second_call_is_cached_witness :
  let first := run Store.env (Demo.handler Demo.body)
                   (Demo.start [] [Demo.reply] None) in
  exists a,
    fst (fst first) = Json200 a
    /\ cached a = Some false
    /\ missingSkills a = ["Docker"]
    /\ forall dt down answers,
        dt < CACHE_TTL ->
        let second := run Store.env (Demo.handler Demo.body)
                          (Store.later dt down answers (snd (fst first))) in
        exists b,
          fst (fst second) = Json200 b
          /\ cached b = Some true
          /\ same_payload a b
          /\ served_from_memory (snd second) = true.
Proof.
  destruct (second_call_is_cached Demo.JSON_parse Demo.ToNumber
              Demo.resume Demo.job ∅ (Demo.world [] [Demo.reply] None)
              Demo.reply [] Demo.analysis
              (proj1 demo_lengths) (proj2 demo_lengths) (demo_cold _)
              (or_intror (lookup_empty _)) eq_refl demo_reply_good)
    as (a & H1 & H2 & H3 & _ & _ & H6).
  exists a. repeat split; assumption.
Defined.

(** C2 as stated fails.  A rival commits its row for the same two texts
    while the request awaits the model; the insert then throws for the
    unique key, the table is not read again, and the [Map] ends up with
    the request's own analysis while the table holds the rival's: two
    contents for one key. *)
Lemma rival_row_is_not_read_back :
  let out := run Store.env (Demo.handler Demo.body)
                 (Demo.start [] [Demo.reply] (Some Demo.rival_row)) in
  In (CCreate Demo.own_data (Throw Store.unique_violation)) (snd out)
  /\ List.length (filter is_find (snd out)) = 1%nat
  /\ fst (fst out) = Json200 Demo.own_analysis
  /\ memoryCache (snd (fst out)) !! derived_key Demo.resume Demo.job
     = Some (mkMemEntry Demo.own_analysis 500)
  /\ table (world (snd (fst out))) !! (Demo.resume_hash, Demo.job_hash)
     = Some Demo.rival_row
  /\ missingSkills Demo.own_analysis <> missingSkills Demo.rival_row
  /\ id Demo.own_analysis <> id Demo.rival_row.
Proof.
  cbv zeta. split; [| split; [| split; [| split; [| split; [| split]]]]].
  - vm_compute. do 7 right. left. reflexivity.
  - vm_compute. reflexivity.
  - vm_compute. reflexivity.
  - vm_compute. reflexivity.
  - vm_compute. reflexivity.
  - discriminate.
  - discriminate.
Qed.

(** The amended C2 on that same run. *)
Lemma failed_insert_is_absorbed_witness :
  let out := run Store.env (Demo.handler Demo.body)
                 (Demo.start [] [Demo.reply] (Some Demo.rival_row)) in
  In (CCreate Demo.own_data (Throw Store.unique_violation)) (snd out)
  /\ exists a t,
      fst (fst out) = Json200 a
      /\ cached a = Some false
      /\ In (CRandomUUID (id a)) (snd out)
      /\ In (CIsoNow (createdAt a)) (snd out)
      /\ mkCreateData (resumeHash a) (jobDescHash a) (missingSkills a)
                      (learningSteps a) (interviewQuestions a) = Demo.own_data
      /\ last (snd out)
         = Some (CMemorySet (cacheKey (resumeHash a) (jobDescHash a))
                            (mkMemEntry a t))
      /\ List.length (filter is_find (snd out)) = 1%nat.
Proof.
  cbv zeta.
  assert (H : In (CCreate Demo.own_data (Throw Store.unique_violation))
                 (snd (run Store.env (Demo.handler Demo.body)
                           (Demo.start [] [Demo.reply] (Some Demo.rival_row))))).
  { vm_compute. do 7 right. left. reflexivity. }
  split; [exact H |].
  exact (failed_insert_is_absorbed Demo.JSON_parse Demo.ToNumber Store.env
           Demo.body _ _ _ H).
Defined.

(** C3 as stated fails.  The store is out of reach during the first
    request and back for the second, one minute later; nothing was
    stored in the table, and yet the second request is answered from the
    [Map] with [cached: true]: the model is not asked afresh. *)
Lemma recovered_store_served_from_memory :
  let first := run Store.env (Demo.handler Demo.body)
                   (Demo.start [true] [Demo.reply] None) in
  let second := run Store.env (Demo.handler Demo.body)
                    (Store.later 60000 [] [Demo.reply] (snd (fst first))) in
  In (CFindUnique Demo.resume_hash Demo.job_hash (Throw Store.unreachable))
     (snd first)
  /\ fst (fst first) = Json200 Demo.own_analysis
  /\ table (world (snd (fst first))) !! (Demo.resume_hash, Demo.job_hash) = None
  /\ Store.down (world (Store.later 60000 [] [Demo.reply] (snd (fst first)))) = false
  /\ fst (fst second) = Json200 (with_cached Demo.own_analysis true)
  /\ existsb is_generate (snd second) = false.
Proof.
  cbv zeta. split; [| split; [| split; [| split; [| split]]]].
  - vm_compute. do 3 right. left. reflexivity.
  - vm_compute. reflexivity.
  - vm_compute. reflexivity.
  - vm_compute. reflexivity.
  - vm_compute. reflexivity.
  - vm_compute. reflexivity.
Qed.

(** The amended C3 on that scenario. *)
Lemma degraded_then_recovered_witness :
  let first := run Store.env (Demo.handler Demo.body)
                   (Demo.start [true] [Demo.reply] None) in
  Store.down (Demo.world [true] [Demo.reply] None) = true
  /\ exists a,
      fst (fst first) = Json200 a
      /\ cached a = Some false
      /\ forallb (fun c => negb (is_create c)) (snd first) = true
      /\ forall dt answers,
          let second := run Store.env (Demo.handler Demo.body)
                            (Store.later dt [] answers (snd (fst first))) in
          (dt < CACHE_TTL ->
           fst (fst second) = Json200 (with_cached a true)
           /\ served_from_memory (snd second) = true)
          /\ (CACHE_TTL <= dt ->
              forall rest2,
                answers = Demo.reply :: rest2 ->
                exists b,
                  fst (fst second) = Json200 b
                  /\ cached b = Some false
                  /\ existsb is_generate (snd second) = true).
Proof.
  cbv zeta. split; [reflexivity |].
  destruct (degraded_then_recovered Demo.JSON_parse Demo.ToNumber
              Demo.resume Demo.job ∅ (Demo.world [true] [Demo.reply] None)
              Demo.reply [] Demo.analysis
              (proj1 demo_lengths) (proj2 demo_lengths) (demo_cold _)
              eq_refl eq_refl demo_reply_good)
    as (a & H1 & H2 & H3 & _ & H5).
  exists a. split; [exact H1 |]. split; [exact H2 |]. split; [exact H3 |].
  intros dt answers. destruct (H5 dt answers) as [Hfresh Hold].
  split; [exact Hfresh |].
  intros Hdt rest2 E.
  destruct (Hold Hdt (lookup_empty _) Demo.reply rest2 Demo.analysis E
                 demo_reply_good) as (b & Hb1 & Hb2 & _ & Hb4).
  exists b. repeat split; assumption.
Defined.


(** C8 as stated fails.  An answer of the model without text, and one
    that is prose and no JSON, fail the expected shape and are told to
    the client exactly as a model that cannot be reached: 503
    AI_SERVICE_ERROR.  And a model that cannot be reached, with an error
    whose message holds "malformed", is told exactly as JSON of the wrong
    shape: 422 AI_VALIDATION_ERROR. *)
Lemma failures_are_not_told_apart :
  Sample.response_to Sample.no_text = Sample.response_to (Throw Store.no_reply)
  /\ Sample.response_to Sample.prose = Sample.response_to (Throw Store.no_reply)
  /\ code_of (Sample.response_to (Throw Store.no_reply)) = "AI_SERVICE_ERROR"
  /\ Sample.response_to (Throw Fixture.rejected)
     = Sample.response_to Demo.empty_reply
  /\ code_of (Sample.response_to Demo.empty_reply) = "AI_VALIDATION_ERROR".
Proof.
  split; [| split; [| split; [| split]]]; vm_compute; reflexivity.
Qed.

(** C8 on four answers of the model: JSON of the wrong shape, no text,
    prose, and none at all. *)
Lemma compute_failure_caches_nothing_witness :
  let calls reply :=
    snd (run Store.env (Demo.handler Demo.body) (Demo.start [] [reply] None)) in
  let unwritten reply :=
    forallb (fun c => negb (is_create c || is_memory_set c)) (calls reply) in
  Sample.response_to Demo.empty_reply = ai_validation_error
  /\ unwritten Demo.empty_reply = true
  /\ Sample.response_to Sample.no_text = ai_service_error
  /\ unwritten Sample.no_text = true
  /\ Sample.response_to Sample.prose = ai_service_error
  /\ unwritten Sample.prose = true
  /\ Sample.response_to (Throw Store.no_reply) = ai_service_error
  /\ unwritten (Throw Store.no_reply) = true.
Proof.
  cbv beta zeta.
  assert (Hcall : forall reply,
             In (CGenerateContent (JsString.slice0 8000 Demo.resume)
                                  (JsString.slice0 8000 Demo.job) reply)
                (snd (run Store.env (Demo.handler Demo.body)
                          (Demo.start [] [reply] None)))).
  { intros reply. do 4 right. left. reflexivity. }
  destruct (compute_failure_caches_nothing Demo.JSON_parse Demo.ToNumber
              Store.env Demo.body _ _ _ _
              (mkError ZodErrorC "invalid analysis")
              (Hcall Demo.empty_reply) eq_refl)
    as (_ & Hnone1 & Hshape & _).
  destruct (compute_failure_caches_nothing Demo.JSON_parse Demo.ToNumber
              Store.env Demo.body _ _ _ _
              (mkError TypeErrorC
                 "Cannot read properties of undefined (reading 'trim')")
              (Hcall Sample.no_text) eq_refl)
    as (_ & Hnone2 & _ & Hempty & _).
  destruct (compute_failure_caches_nothing Demo.JSON_parse Demo.ToNumber
              Store.env Demo.body _ _ _ _
              (mkError SyntaxErrorC "Unexpected token in JSON")
              (Hcall Sample.prose) eq_refl)
    as (Hprose & Hnone3 & _).
  destruct (compute_failure_caches_nothing Demo.JSON_parse Demo.ToNumber
              Store.env Demo.body _ _ _ _ Store.no_reply
              (Hcall (Throw Store.no_reply)) eq_refl)
    as (Hdown & Hnone4 & _).
  split; [exact (Hshape "{}" (JObj []) eq_refl eq_refl eq_refl) |].
  split; [exact Hnone1 |]. split; [exact (Hempty eq_refl) |].
  split; [exact Hnone2 |]. split; [exact Hprose |].
  split; [exact Hnone3 |]. split; [exact Hdown | exact Hnone4].
Defined.

(** C9 as stated fails.  An object whose [length] is [null] is a truthy
    value that is not a string and has no numeric [length]; [null < 50]
    holds, so the request is turned down by the second check.  A number
    next to a text that is too short is turned down as well. *)
Lemma non_text_may_be_rejected :
  let nothing_long := JObj [("length", JNull)] in
  let number := JNum (Finite (inject_Z 12345)) in
  let s := Demo.start [] [Demo.reply] None in
  non_text nothing_long
  /\ run Store.env (Demo.handler (mkBody nothing_long (JStr Demo.job))) s
     = (validation_too_short, s, [])
  /\ non_text number
  /\ run Store.env (Demo.handler (mkBody number (JStr "React developer"))) s
     = (validation_too_short, s, [])
  /\ code_of validation_too_short <> "INTERNAL_ERROR".
Proof.
  cbv zeta. split; [| split; [| split; [| split]]].
  - split; [reflexivity | split; [reflexivity |]].
    intros (n & H & _). discriminate H.
  - vm_compute. reflexivity.
  - split; [reflexivity | split; [reflexivity |]].
    intros (n & H & _). discriminate H.
  - vm_compute. reflexivity.
  - discriminate.
Qed.

(** The amended C9 on a number in the place of the resume. *)
Lemma non_text_fails_at_trim_witness :
  let body := mkBody (JNum (Finite (inject_Z 12345))) (JStr Demo.job) in
  let s := Demo.start [] [Demo.reply] None in
  let out := run Store.env (Demo.handler body) s in
  passes Demo.ToNumber (resumeText body)
  /\ passes Demo.ToNumber (jobDescText body)
  /\ fst (fst out)
     = JsonError 500 "Something went wrong processing your request." "INTERNAL_ERROR"
  /\ snd (fst out) = s.
Proof.
  cbv zeta.
  assert (Hr : passes Demo.ToNumber (JNum (Finite (inject_Z 12345))))
    by (split; reflexivity).
  assert (Hj : passes Demo.ToNumber (JStr Demo.job))
    by (apply passes_text, demo_lengths).
  destruct (non_text_fails_at_trim Demo.JSON_parse Demo.ToNumber Store.env
              (mkBody (JNum (Finite (inject_Z 12345))) (JStr Demo.job))
              (Demo.start [] [Demo.reply] None) Hr Hj eq_refl)
    as (H1 & H2 & _).
  repeat split; assumption.
Defined.

(** C10 with a store that is out of reach at the lookup and back before
    the model has answered. *)
Lemma degraded_lookup_skips_insert_witness :
  let s := Demo.start [true; false] [Demo.reply] None in
  let out := run Store.env (Demo.handler Demo.body) s in
  In (CFindUnique Demo.resume_hash Demo.job_hash (Throw Store.unreachable))
     (snd out)
  /\ table (world (snd (fst out))) = table (world s)
  /\ forallb (fun c => negb (is_create c)) (snd out) = true
  /\ forall a,
      fst (fst out) = Json200 a ->
      cached a = Some false
      /\ exists t, last (snd out)
                   = Some (CMemorySet (cacheKey Demo.resume_hash Demo.job_hash)
                                      (mkMemEntry a t)).
Proof.
  cbv zeta.
  assert (H : In (CFindUnique Demo.resume_hash Demo.job_hash
                              (Throw Store.unreachable))
                 (snd (run Store.env (Demo.handler Demo.body)
                           (Demo.start [true; false] [Demo.reply] None)))).
  { vm_compute. do 3 right. left. reflexivity. }
  split; [exact H |]. split; [vm_compute; reflexivity |].
  exact (degraded_lookup_skips_insert Demo.JSON_parse Demo.ToNumber Store.env
           Demo.body _ _ _ _ H).
Defined.



(** * Further properties of the code *)

(** ** More on normalization *)

(** X1.  What is fed to the hash is in normal form: [trim] and
    [toLowerCase] leave it as it is.  So a text and its normalized form
    have the same key, in either role. *)
Theorem normalized_text_is_a_fixed_point (r j : string) :
  JsString.trim (normalize r) = normalize r
  /\ JsString.toLowerCase (normalize r) = normalize r
  /\ derived_key (normalize r) j = derived_key r j
  /\ derived_key j (normalize r) = derived_key j r.
Proof.
  assert (Ht : JsString.trim (normalize r) = normalize r).
  { unfold normalize. now rewrite trim_lower, trim_idem. }
  assert (Hl : JsString.toLowerCase (normalize r) = normalize r).
  { unfold normalize. apply toLowerCase_idem. }
  repeat split; try assumption; unfold derived_key; now rewrite normalize_idem.
Qed.

(** ** More on the handler against an arbitrary environment *)

Lemma slice0_length (s : string) :
  forall n, 0 <= n -> (String.length (JsString.slice0 n s) <= Z.to_nat n)%nat.
Proof.
  induction s as [| c s IH]; intros n Hn; cbn [JsString.slice0 String.length];
    [lia |].
  destruct (0 <? n) eqn:E; cbn [String.length]; [| lia].
  apply Z.ltb_lt in E. specialize (IH (n - 1)). lia.
Qed.

Lemma slice0_all (s : string) :
  forall n, Z.of_nat (String.length s) <= n -> JsString.slice0 n s = s.
Proof.
  induction s as [| c s IH]; intros n Hn; [reflexivity |].
  cbn [JsString.slice0 String.length] in *.
  destruct (0 <? n) eqn:E; [| apply Z.ltb_ge in E; lia].
  rewrite IH by lia. reflexivity.
Qed.

Lemma slice0_prefix (s : string) :
  forall n, exists tail, s = JsString.slice0 n s +:+ tail.
Proof.
  induction s as [| c s IH]; intros n; [exists ""; reflexivity |].
  cbn [JsString.slice0]. destruct (0 <? n).
  - destruct (IH (n - 1)) as [tail E]. exists tail.
    rewrite StringFacts.app_cons. now rewrite <- E.
  - exists (String c s). reflexivity.
Qed.

Lemma on_error_in_taxonomy (e : JsError) : in_taxonomy (on_error e).
Proof.
  unfold on_error. right.
  destruct (JsString.includes "malformed" (message e));
    [| destruct (JsString.includes "AI Service Failed" (message e))];
    eexists; (split; [| tauto]); discriminate.
Qed.

Section HandlerMore.

Variable JSON_parse : string -> Result JsVal.
Variable ToNumber : JsVal -> Result JsNumber.
Context {W : Type} (env : Env W).

Local Notation "'handler'" := (post_api_analyze JSON_parse ToNumber).
Local Notation "'resolved' r j s" :=
  (run env (resolve JSON_parse r j (sha256_hex (normalize r))
                    (sha256_hex (normalize j))) s)
  (at level 10, r at level 9, j at level 9, s at level 9).

(** The ways out of the [try] block before [resolve]. *)
Lemma run_early (body : Body) (s : State W) :
  (exists o calls,
      run env (try_block JSON_parse ToNumber body) s = (o, s, calls)
      /\ (o = Ok validation_required \/ o = Ok validation_too_short
          \/ exists e, o = Throw e)
      /\ (calls = [] \/ exists x, calls = [CSha256Hex x (sha256_hex x)]))
  \/ (exists r j,
        body = mkBody (JStr r) (JStr j)
        /\ (50 <= String.length r)%nat /\ (50 <= String.length j)%nat).
Proof.
  destruct body as [vr vj]. unfold try_block. cbn [resumeText jobDescText].
  destruct (negb (Js.truthy vr) || negb (Js.truthy vj)).
  { left. do 2 eexists. split; [reflexivity |]. split; [tauto | now left]. }
  cbn [bindE bind].
  destruct (less_than_50 ToNumber (Js.dot_length vr)) as [[] | e] eqn:Er.
  { left. do 2 eexists. split; [reflexivity |]. split; [tauto | now left]. }
  2: { left. do 2 eexists. split; [reflexivity |].
       split; [right; right; eexists; reflexivity | now left]. }
  destruct (less_than_50 ToNumber (Js.dot_length vj)) as [[] | e] eqn:Ej.
  { left. do 2 eexists. split; [reflexivity |]. split; [tauto | now left]. }
  2: { left. do 2 eexists. split; [reflexivity |].
       split; [right; right; eexists; reflexivity | now left]. }
  destruct vr as [| | | | r | |];
    try (left; do 2 eexists; split; [reflexivity |];
         split; [right; right; eexists; reflexivity | now left]).
  destruct vj as [| | | | j | |];
    try (left; do 2 eexists; split; [reflexivity |];
         split; [right; right; eexists; reflexivity | right; eexists; reflexivity]).
  right. exists r, j. split; [reflexivity |].
  rewrite less_than_50_length in Er, Ej.
  injection Er as Er. injection Ej as Ej.
  apply Nat.ltb_ge in Er, Ej. split; assumption.
Qed.

Lemma resolve_outcome (r j rh jh : string) (s : State W) :
  (exists a, fst (fst (run env (resolve JSON_parse r j rh jh) s)) = Ok (Json200 a))
  \/ (exists e, fst (fst (run env (resolve JSON_parse r j rh jh) s)) = Throw e).
Proof.
  open_resolve. crunch; first [left; eexists; reflexivity | right; eexists; reflexivity].
Qed.

Lemma run_in_taxonomy (body : Body) (s : State W) :
  in_taxonomy (fst (fst (run env (handler body) s))).
Proof.
  destruct (run_early body s) as [(o & calls & E & Ho & _) | (r & j & -> & Hr & Hj)].
  - rewrite run_handler, E. cbn [fst].
    destruct Ho as [-> | [-> | [e ->]]]; cbn [unwrap].
    + right. eexists. split; [| left; reflexivity]. discriminate.
    + right. eexists. split; [| left; reflexivity]. discriminate.
    + apply on_error_in_taxonomy.
  - rewrite run_accepted by assumption. cbn [fst].
    destruct (resolve_outcome r j (sha256_hex (normalize r))
                              (sha256_hex (normalize j)) s) as [[a E] | [e E]];
      rewrite E; cbn [unwrap].
    + left. eexists. reflexivity.
    + apply on_error_in_taxonomy.
Qed.

(** X6.  Whatever the body and whatever the collaborators do, the
    response is 200 with an analysis, or one of four errors, each with a
    message that is not empty: 400 VALIDATION_ERROR, 422
    AI_VALIDATION_ERROR, 503 AI_SERVICE_ERROR, 500 INTERNAL_ERROR. *)
Theorem response_taxonomy (body : Body) (s : State W) :
  in_taxonomy (fst (fst (run env (handler body) s))).
Proof. apply run_in_taxonomy. Qed.

Lemma resolve_budget (r j rh jh : string) (s : State W) :
  let calls := snd (run env (resolve JSON_parse r j rh jh) s) in
  (count is_find calls <= 1)%nat /\ (count is_generate calls <= 1)%nat
  /\ (count is_create calls <= 1)%nat /\ (count is_memory_set calls <= 1)%nat
  /\ (count is_create calls <= count is_generate calls)%nat
  /\ (count is_generate calls <= count is_find calls)%nat
  /\ count is_hash calls = 0%nat.
Proof.
  open_resolve. crunch; unfold count; cbn; lia.
Qed.

(** X5.  One request costs at most two digests, one lookup in the table,
    one call of the model, one insert and one write into the [Map]; the
    model is called only after a lookup in the table, and an insert is
    made only after a call of the model. *)
Theorem call_budget (body : Body) (s : State W) :
  let calls := snd (run env (handler body) s) in
  (count is_hash calls <= 2)%nat
  /\ (count is_find calls <= 1)%nat /\ (count is_generate calls <= 1)%nat
  /\ (count is_create calls <= 1)%nat /\ (count is_memory_set calls <= 1)%nat
  /\ (count is_create calls <= count is_generate calls)%nat
  /\ (count is_generate calls <= count is_find calls)%nat.
Proof.
  destruct (run_cases JSON_parse ToNumber env body s)
    as [[resp E] | [(resp & x & E) | (r & j & _ & E)]];
    rewrite E; cbn [snd]; try (unfold count; cbn; lia).
  pose proof (resolve_budget r j (sha256_hex (normalize r))
                             (sha256_hex (normalize j)) s) as H.
  cbv zeta in *. unfold count in *. cbn [List.filter is_hash is_find is_generate
    is_create is_memory_set List.length]. lia.
Qed.

Lemma resolve_persistent_hit (r j rh jh : string) (s : State W) :
  forall rh' jh' row,
    In (CFindUnique rh' jh' (Ok (Some row)))
       (snd (run env (resolve JSON_parse r j rh jh) s)) ->
    fst (fst (run env (resolve JSON_parse r j rh jh) s))
    = Ok (Json200 (with_cached row true))
    /\ (exists t, last (snd (run env (resolve JSON_parse r j rh jh) s))
                  = Some (CMemorySet (cacheKey rh jh) (mkMemEntry row t)))
    /\ count is_generate (snd (run env (resolve JSON_parse r j rh jh) s)) = 0%nat
    /\ count is_create (snd (run env (resolve JSON_parse r j rh jh) s)) = 0%nat.
Proof.
  open_resolve. crunch; intros rh' jh' row H; split_in;
    match goal with
    | H : CFindUnique _ _ _ = CFindUnique _ _ _ |- _ => injection H as _ _ H
    end; try congruence;
    match goal with
    | H : Ok (Some _) = Ok (Some _) |- _ => injection H as <-
    | H : Some _ = Some _ |- _ => injection H as <-
    | _ => idtac
    end; subst;
    repeat split; try reflexivity; try (eexists; reflexivity); congruence.
Qed.

(** X3.  When the table has the row, the request is answered with it,
    marked [cached: true]; the row as found, without that mark, is written
    into the [Map] as the last call, and the request has neither asked
    the model nor inserted anything. *)
Theorem persistent_hit_writes_back (r j : string) (s : State W) :
  (50 <= String.length r)%nat -> (50 <= String.length j)%nat ->
  forall rh jh row,
    In (CFindUnique rh jh (Ok (Some row)))
       (snd (run env (handler (mkBody (JStr r) (JStr j))) s)) ->
    fst (fst (run env (handler (mkBody (JStr r) (JStr j))) s))
    = Json200 (with_cached row true)
    /\ (exists t, last (snd (run env (handler (mkBody (JStr r) (JStr j))) s))
                  = Some (CMemorySet (derived_key r j) (mkMemEntry row t)))
    /\ count is_generate (snd (run env (handler (mkBody (JStr r) (JStr j))) s))
       = 0%nat
    /\ count is_create (snd (run env (handler (mkBody (JStr r) (JStr j))) s))
       = 0%nat.
Proof.
  intros Hr Hj rh jh row. rewrite run_accepted by assumption.
  cbn [fst snd]. intros H. split_in.
  destruct (resolve_persistent_hit _ _ _ _ _ _ _ _ H) as (Hout & [t Hlast] & Hg & Hc).
  rewrite Hout. cbn [unwrap]. split; [reflexivity |].
  split; [| split; [exact Hg | exact Hc]].
  exists t. unfold derived_key. rewrite <- Hlast.
  destruct (snd (resolved r j s)); [discriminate Hlast | reflexivity].
Qed.

Lemma resolve_insert_ok (r j rh jh : string) (s : State W) :
  forall d row,
    In (CCreate d (Ok row)) (snd (run env (resolve JSON_parse r j rh jh) s)) ->
    fst (fst (run env (resolve JSON_parse r j rh jh) s))
    = Ok (Json200 (with_cached row false))
    /\ (exists t, last (snd (run env (resolve JSON_parse r j rh jh) s))
                  = Some (CMemorySet (cacheKey rh jh)
                                     (mkMemEntry (with_cached row false) t)))
    /\ (exists u, In (CRandomUUID u) (snd (run env (resolve JSON_parse r j rh jh) s))).
Proof.
  open_resolve. crunch; intros d row H; split_in;
    match goal with
    | H : CCreate _ _ = CCreate _ _ |- _ => injection H as _ H
    end; try congruence;
    match goal with
    | H : Ok _ = Ok _ |- _ => injection H as <-
    | _ => idtac
    end; subst;
    repeat split; try reflexivity; try (eexists; reflexivity);
    eexists; cbn [In]; tauto.
Qed.

(** X4.  When the insert succeeds, the response and the entry written
    into the [Map], as the last call, are the row the store returned,
    marked [cached: false]: the identifier in the response is the store's,
    and the one drawn from [randomUUID] is dropped. *)
Theorem successful_insert_is_served (r j : string) (s : State W) :
  (50 <= String.length r)%nat -> (50 <= String.length j)%nat ->
  forall d row,
    In (CCreate d (Ok row)) (snd (run env (handler (mkBody (JStr r) (JStr j))) s)) ->
    fst (fst (run env (handler (mkBody (JStr r) (JStr j))) s))
    = Json200 (with_cached row false)
    /\ (exists t, last (snd (run env (handler (mkBody (JStr r) (JStr j))) s))
                  = Some (CMemorySet (derived_key r j)
                                     (mkMemEntry (with_cached row false) t)))
    /\ (exists u, In (CRandomUUID u)
                     (snd (run env (handler (mkBody (JStr r) (JStr j))) s))).
Proof.
  intros Hr Hj d row. rewrite run_accepted by assumption.
  cbn [fst snd]. intros H. split_in.
  destruct (resolve_insert_ok _ _ _ _ _ _ _ H) as (Hout & [t Hlast] & [u Hu]).
  rewrite Hout. cbn [unwrap]. split; [reflexivity |]. split.
  - exists t. unfold derived_key. rewrite <- Hlast.
    destruct (snd (resolved r j s)); [discriminate Hlast | reflexivity].
  - exists u. right; right; exact Hu.
Qed.

Lemma resolve_order (r j rh jh : string) (s : State W) :
  forall a b reply,
    In (CGenerateContent a b reply)
       (snd (run env (resolve JSON_parse r j rh jh) s)) ->
    exists answer rest,
      (snd (run env (resolve JSON_parse r j rh jh) s)
       = CMemoryGet (cacheKey rh jh) None
         :: CFindUnique rh jh answer :: CGenerateContent a b reply :: rest
       \/ exists entry t,
           CACHE_TTL <= t - timestamp entry
           /\ snd (run env (resolve JSON_parse r j rh jh) s)
              = CMemoryGet (cacheKey rh jh) (Some entry) :: CDateNow t
                :: CFindUnique rh jh answer :: CGenerateContent a b reply
                :: rest)
      /\ (answer = Ok None \/ exists e, answer = Throw e).
Proof.
  open_resolve. crunch; intros a' b' reply H; split_in;
    match goal with
    | H : CGenerateContent _ _ _ = CGenerateContent _ _ _ |- _ =>
        injection H as <- <- <-
    end;
    do 2 eexists;
    (split;
     [ first [ left; reflexivity
             | right; do 2 eexists; split; [| reflexivity];
               match goal with
               | H : (_ <? _) = false |- _ => apply Z.ltb_ge in H; exact H
               end ]
     | first [left; reflexivity | right; eexists; reflexivity] ]).
Qed.

(** X7.  The model is asked only after both tiers were consulted and
    neither had the analysis: the calls up to the model are the two
    digests, the lookup in the [Map], which found nothing or an entry
    that has reached the time to live, and the lookup in the table, which
    answered that there is no row or threw. *)
Theorem model_asked_after_both_tiers (r j : string) (s : State W) :
  (50 <= String.length r)%nat -> (50 <= String.length j)%nat ->
  forall a b reply,
    In (CGenerateContent a b reply)
       (snd (run env (handler (mkBody (JStr r) (JStr j))) s)) ->
    exists answer rest,
      (answer = Ok None \/ exists e, answer = Throw e)
      /\ (snd (run env (handler (mkBody (JStr r) (JStr j))) s)
          = CSha256Hex (normalize r) (sha256_hex (normalize r))
            :: CSha256Hex (normalize j) (sha256_hex (normalize j))
            :: CMemoryGet (derived_key r j) None
            :: CFindUnique (sha256_hex (normalize r)) (sha256_hex (normalize j))
                           answer
            :: CGenerateContent a b reply :: rest
          \/ exists entry t,
              CACHE_TTL <= t - timestamp entry
              /\ snd (run env (handler (mkBody (JStr r) (JStr j))) s)
                 = CSha256Hex (normalize r) (sha256_hex (normalize r))
                   :: CSha256Hex (normalize j) (sha256_hex (normalize j))
                   :: CMemoryGet (derived_key r j) (Some entry) :: CDateNow t
                   :: CFindUnique (sha256_hex (normalize r))
                                  (sha256_hex (normalize j)) answer
                   :: CGenerateContent a b reply :: rest).
Proof.
  intros Hr Hj a b reply. rewrite run_accepted by assumption.
  cbn [fst snd]. intros H. split_in.
  destruct (resolve_order _ _ _ _ _ _ _ _ H)
    as (answer & rest & [E | (entry & t & Hold & E)] & Ha);
    exists answer, rest; (split; [exact Ha |]); rewrite E; unfold derived_key.
  - left. reflexivity.
  - right. exists entry, t. split; [exact Hold | reflexivity].
Qed.

Lemma resolve_reply (r j rh jh : string) (s : State W) :
  forall a b reply,
    In (CGenerateContent a b reply)
       (snd (run env (resolve JSON_parse r j rh jh) s)) ->
    a = JsString.slice0 8000 r /\ b = JsString.slice0 8000 j
    /\ (forall e, read_response JSON_parse reply = Throw e ->
                  fst (fst (run env (resolve JSON_parse r j rh jh) s))
                  = Throw (rethrow e))
    /\ (forall ai, read_response JSON_parse reply = Ok ai ->
          exists x,
            fst (fst (run env (resolve JSON_parse r j rh jh) s)) = Ok (Json200 x)
            /\ cached x = Some false
            /\ count is_memory_set (snd (run env (resolve JSON_parse r j rh jh) s))
               = 1%nat
            /\ ((forall d row,
                    ~ In (CCreate d (Ok row))
                         (snd (run env (resolve JSON_parse r j rh jh) s))) ->
                missingSkills x = ai_missingSkills ai
                /\ learningSteps x = ai_learningSteps ai
                /\ interviewQuestions x = ai_interviewQuestions ai)).
Proof.
  open_resolve. crunch; intros a' b' reply H; split_in;
    match goal with
    | H : CGenerateContent _ _ _ = CGenerateContent _ _ _ |- _ =>
        injection H as <- <- <-
    end;
    (split; [reflexivity |]); (split; [reflexivity |]);
    (split; [intros err Herr | intros ai Hai]);
    match goal with
    | H : read_response _ _ = _, H' : context [read_response _ _] |- _ =>
        rewrite H in H'
    end; try discriminate;
    try (match goal with
         | H : Throw _ = Throw _ |- _ => injection H as <-
         end; reflexivity);
    match goal with
    | H : Ok _ = Ok _ |- _ => injection H as <-
    end;
    eexists; (split; [reflexivity |]); (split; [reflexivity |]);
    (split; [reflexivity |]); intros Hnone;
    try (repeat split; reflexivity);
    exfalso; eapply Hnone; cbn [In];
    repeat (first [left; reflexivity | right]).
Qed.

(** X8.  The outer [catch] looks for the word "malformed" first.  So
    when the call of the model, or the reading of its answer, fails with
    a message that holds that word, the client is told 422
    AI_VALIDATION_ERROR, "AI returned invalid data", whatever kind of
    failure it was. *)
Theorem malformed_word_decides (r j : string) (s : State W) :
  (50 <= String.length r)%nat -> (50 <= String.length j)%nat ->
  forall a b reply e,
    In (CGenerateContent a b reply)
       (snd (run env (handler (mkBody (JStr r) (JStr j))) s)) ->
    read_response JSON_parse reply = Throw e ->
    JsString.includes "malformed" (message e) = true ->
    fst (fst (run env (handler (mkBody (JStr r) (JStr j))) s))
    = JsonError 422 "AI returned invalid data. Please try again."
                "AI_VALIDATION_ERROR".
Proof.
  intros Hr Hj a b reply e. rewrite run_accepted by assumption.
  cbn [fst snd]. intros H Hread Hword. split_in.
  destruct (resolve_reply _ _ _ _ _ _ _ _ H) as (_ & _ & Hfail & _).
  rewrite (Hfail e Hread). cbn [unwrap]. unfold on_error, rethrow.
  destruct (err_class e); cbn [message];
    try (rewrite includes_malformed_failed, Hword); reflexivity.
Qed.

(** X9.  What the store does never fails a request that got its
    analysis: once the model has answered well, the response is 200 with
    [cached: false] and the [Map] is written once, whether the lookup and
    the insert succeeded or threw.  Unless an insert succeeded, the
    response holds the analysis of the model. *)
Theorem store_failures_are_absorbed (r j : string) (s : State W) :
  (50 <= String.length r)%nat -> (50 <= String.length j)%nat ->
  forall a b reply ai,
    In (CGenerateContent a b reply)
       (snd (run env (handler (mkBody (JStr r) (JStr j))) s)) ->
    read_response JSON_parse reply = Ok ai ->
    exists x,
      fst (fst (run env (handler (mkBody (JStr r) (JStr j))) s)) = Json200 x
      /\ cached x = Some false
      /\ count is_memory_set (snd (run env (handler (mkBody (JStr r) (JStr j))) s))
         = 1%nat
      /\ ((forall d row,
              ~ In (CCreate d (Ok row))
                   (snd (run env (handler (mkBody (JStr r) (JStr j))) s))) ->
          missingSkills x = ai_missingSkills ai
          /\ learningSteps x = ai_learningSteps ai
          /\ interviewQuestions x = ai_interviewQuestions ai).
Proof.
  intros Hr Hj a b reply ai. rewrite run_accepted by assumption.
  cbn [fst snd]. intros H Hread. split_in.
  destruct (resolve_reply _ _ _ _ _ _ _ _ H) as (_ & _ & _ & Hok).
  destruct (Hok ai Hread) as (x & Hout & Hc & Hset & Hpay).
  exists x. rewrite Hout. cbn [unwrap].
  split; [reflexivity |]. split; [exact Hc |]. split; [exact Hset |].
  intros Hnone. apply Hpay. intros d row Hin.
  apply (Hnone d row). right; right; exact Hin.
Qed.

(** X11.  The model is given the texts as they were sent, neither
    trimmed nor lower-cased, cut after 8000 characters: what it gets of
    the resume is a prefix of the resume of at most 8000 characters, and
    the whole resume when that is no longer; the same for the job
    description. *)
Theorem prompt_takes_first_8000 (r j : string) (s : State W) :
  (50 <= String.length r)%nat -> (50 <= String.length j)%nat ->
  forall a b reply,
    In (CGenerateContent a b reply)
       (snd (run env (handler (mkBody (JStr r) (JStr j))) s)) ->
    Z.of_nat (String.length a) <= 8000 /\ Z.of_nat (String.length b) <= 8000
    /\ (exists tail, r = a +:+ tail) /\ (exists tail, j = b +:+ tail)
    /\ (Z.of_nat (String.length r) <= 8000 -> a = r)
    /\ (Z.of_nat (String.length j) <= 8000 -> b = j).
Proof.
  intros Hr Hj a b reply. rewrite run_accepted by assumption.
  cbn [fst snd]. intros H. split_in.
  destruct (resolve_reply _ _ _ _ _ _ _ _ H) as (-> & -> & _).
  pose proof (slice0_length r 8000). pose proof (slice0_length j 8000).
  split; [lia |]. split; [lia |].
  split; [apply slice0_prefix |]. split; [apply slice0_prefix |].
  split; intros; apply slice0_all; assumption.
Qed.

Lemma resolve_own_key (r j rh jh : string) (s : State W) :
  Forall (uses_only rh jh) (snd (run env (resolve JSON_parse r j rh jh) s)).
Proof.
  open_resolve. crunch; repeat constructor.
Qed.

(** X10.  A request reads and writes under its own key only: every
    lookup and write in the [Map] is made with the key of its two
    digests, every lookup and insert in the table with those two
    digests. *)
Theorem calls_use_own_key (r j : string) (s : State W) :
  (50 <= String.length r)%nat -> (50 <= String.length j)%nat ->
  Forall (uses_only (sha256_hex (normalize r)) (sha256_hex (normalize j)))
         (snd (run env (handler (mkBody (JStr r) (JStr j))) s)).
Proof.
  intros Hr Hj. rewrite run_accepted by assumption. cbn [snd].
  repeat (constructor; [exact I |]). apply resolve_own_key.
Qed.

(** X2.  The texts are measured before [trim] and hashed after it.  A
    resume of 50 or more characters that are all white space passes both
    checks and is hashed as the empty text: all such resumes go to the
    [Map] with the key of the empty resume, and so share one entry for a
    given job description. *)
Theorem blank_texts_share_a_key (r j : string) (s : State W) :
  (50 <= String.length r)%nat -> (50 <= String.length j)%nat ->
  every JsString.is_white r = true ->
  passes ToNumber (JStr r)
  /\ derived_key r j = derived_key "" j
  /\ exists rest,
      snd (run env (handler (mkBody (JStr r) (JStr j))) s)
      = CSha256Hex "" (sha256_hex "")
        :: CSha256Hex (normalize j) (sha256_hex (normalize j))
        :: CMemoryGet (derived_key "" j) (memoryCache s !! derived_key "" j)
        :: rest.
Proof.
  intros Hr Hj Hblank.
  assert (Hkey : derived_key r j = derived_key "" j).
  { unfold derived_key. now rewrite (normalize_blank r Hblank). }
  split; [now apply passes_text |]. split; [exact Hkey |].
  destruct (handler_looks_up_derived_key JSON_parse ToNumber env r j s Hr Hj)
    as [rest E].
  exists rest. rewrite E, Hkey, (normalize_blank r Hblank). reflexivity.
Qed.

End HandlerMore.

(** ** [analyzeGap]: the schema and the fences *)

Lemma all_of_string (items : list JsVal) (l : list string) :
  Zod.all_of Zod.string_ items = Some l <-> items = map JStr l.
Proof.
  revert l. induction items as [| v items IH]; intros l; cbn [Zod.all_of].
  - split; [intros [= <-]; reflexivity | destruct l; [reflexivity | discriminate]].
  - destruct (Zod.string_ v) as [x |] eqn:Ev.
    + destruct v; try discriminate Ev. cbn in Ev. injection Ev as ->.
      destruct (Zod.all_of Zod.string_ items) as [l' |] eqn:El.
      * split.
        -- intros [= <-]. cbn [map]. f_equal. now apply IH.
        -- destruct l as [| y l]; [discriminate |]. cbn [map].
           intros [= -> H]. apply IH in H. now injection H as ->.
      * split; [discriminate |].
        destruct l as [| y l]; [discriminate |]. cbn [map].
        intros [= _ H]. apply IH in H. discriminate H.
    + split; [discriminate |].
      destruct l as [| y l]; [discriminate |]. cbn [map].
      intros [= -> _]. discriminate Ev.
Qed.

Lemma step_spec (v : JsVal) (st : LearningStep) :
  Zod.step v = Some st <-> step_object v st.
Proof.
  unfold Zod.step, step_object. split.
  - destruct v as [| | | | | | props]; try discriminate.
    destruct (Js.get_own "title" props) as [| | | | t | |] eqn:Et;
      try discriminate;
      destruct (Js.get_own "description" props) as [| | | | d | |] eqn:Ed;
      try discriminate.
    cbn [Zod.string_]. intros [= <-]. exists props. cbn [title description].
    repeat split; assumption.
  - intros (props & -> & Ht & Hd). rewrite Ht, Hd. cbn [Zod.string_].
    now destruct st.
Qed.

Lemma all_of_step (items : list JsVal) (l : list LearningStep) :
  Zod.all_of Zod.step items = Some l <-> Forall2 step_object items l.
Proof.
  revert l. induction items as [| v items IH]; intros l; cbn [Zod.all_of].
  - split; [intros [= <-]; constructor | intros H; inversion H; reflexivity].
  - split.
    + destruct (Zod.step v) as [st |] eqn:Ev; [| discriminate].
      destruct (Zod.all_of Zod.step items) as [l' |] eqn:El; [| discriminate].
      intros [= <-]. constructor; [now apply step_spec | now apply IH].
    + intros H. inversion H as [| ? st ? l' Hst Hrest]; subst.
      apply step_spec in Hst. apply IH in Hrest. now rewrite Hst, Hrest.
Qed.

Lemma well_shaped_checks (ms : list string) (ls : list LearningStep)
      (iq : list string) :
  (1 <=? List.length ms)%nat && (List.length ms <=? 10)%nat
  && (List.length ls =? 3)%nat && (List.length iq =? 3)%nat = true
  <-> well_shaped (mkAiResult ms ls iq).
Proof.
  unfold well_shaped. cbn [ai_missingSkills ai_learningSteps ai_interviewQuestions].
  rewrite !andb_true_iff, !Nat.leb_le, !Nat.eqb_eq. tauto.
Qed.

Lemma schema_shape_of (v : JsVal) (a : AiResult) :
  Zod.AnalysisSchema v = Some a -> well_shaped a.
Proof.
  unfold Zod.AnalysisSchema.
  destruct v as [| | | | | | props]; try discriminate.
  destruct (Zod.array Zod.string_ (Js.get_own "missingSkills" props)) as [ms |];
    [| discriminate].
  destruct (Zod.array Zod.step (Js.get_own "learningSteps" props)) as [ls |];
    [| discriminate].
  destruct (Zod.array Zod.string_ (Js.get_own "interviewQuestions" props))
    as [iq |]; [| discriminate].
  destruct ((1 <=? List.length ms)%nat && (List.length ms <=? 10)%nat
            && (List.length ls =? 3)%nat && (List.length iq =? 3)%nat)
    eqn:Hc; [| discriminate].
  intros [= <-]. now apply well_shaped_checks.
Qed.

(** X13.  [AnalysisSchema] lets a value through exactly when it is an
    object whose [missingSkills] is an array of 1 to 10 strings, whose
    [learningSteps] is an array of exactly 3 objects with a string
    [title] and a string [description], and whose [interviewQuestions]
    is an array of exactly 3 strings; the result holds those strings and
    nothing else, so other properties of the object or of a step are
    dropped. *)
Theorem schema_characterised (v : JsVal) (a : AiResult) :
  Zod.AnalysisSchema v = Some a
  <-> exists props steps,
      v = JObj props
      /\ Js.get_own "missingSkills" props = JArr (map JStr (ai_missingSkills a))
      /\ Js.get_own "learningSteps" props = JArr steps
      /\ Forall2 step_object steps (ai_learningSteps a)
      /\ Js.get_own "interviewQuestions" props
         = JArr (map JStr (ai_interviewQuestions a))
      /\ well_shaped a.
Proof.
  unfold Zod.AnalysisSchema, Zod.array. split.
  - destruct v as [| | | | | | props]; try discriminate.
    destruct (Js.get_own "missingSkills" props) as [| | | | | ms |] eqn:Ems;
      try discriminate.
    destruct (Zod.all_of Zod.string_ ms) as [lms |] eqn:Ams; [| discriminate].
    destruct (Js.get_own "learningSteps" props) as [| | | | | ls |] eqn:Els;
      try discriminate.
    destruct (Zod.all_of Zod.step ls) as [lls |] eqn:Als; [| discriminate].
    destruct (Js.get_own "interviewQuestions" props) as [| | | | | iq |] eqn:Eiq;
      try discriminate.
    destruct (Zod.all_of Zod.string_ iq) as [liq |] eqn:Aiq; [| discriminate].
    destruct ((1 <=? List.length lms)%nat && (List.length lms <=? 10)%nat
              && (List.length lls =? 3)%nat && (List.length liq =? 3)%nat)
      eqn:Hc; [| discriminate].
    intros [= <-]. apply well_shaped_checks in Hc.
    apply all_of_string in Ams, Aiq. apply all_of_step in Als. subst ms iq.
    exists props, ls. cbn [ai_missingSkills ai_learningSteps ai_interviewQuestions].
    repeat split; try assumption; apply Hc.
  - intros (props & steps & -> & Hms & Hls & Hsteps & Hiq & Hshape).
    rewrite Hms, Hls, Hiq.
    rewrite (proj2 (all_of_string _ _) eq_refl), (proj2 (all_of_step _ _) Hsteps),
      (proj2 (all_of_string _ _) eq_refl).
    destruct a as [ms ls iq].
    cbn [ai_missingSkills ai_learningSteps ai_interviewQuestions].
    now rewrite (proj2 (well_shaped_checks ms ls iq) Hshape).
Qed.

Lemma read_response_shape (JSON_parse : string -> Result JsVal)
      (reply : Result (option string)) (a : AiResult) :
  read_response JSON_parse reply = Ok a -> well_shaped a.
Proof.
  unfold read_response.
  destruct reply as [[text |] | e]; try discriminate.
  destruct (JSON_parse (Fence.clean text)) as [v | e]; [| discriminate].
  destruct (Zod.AnalysisSchema v) as [x |] eqn:E; [| discriminate].
  intros [= <-]. apply schema_shape_of in E. exact E.
Qed.

Section Shape.

Variable JSON_parse : string -> Result JsVal.
Variable ToNumber : JsVal -> Result JsNumber.
Context {W : Type} (env : Env W).

Lemma resolve_insert_data (r j rh jh : string) (s : State W) :
  forall d answer,
    In (CCreate d answer) (snd (run env (resolve JSON_parse r j rh jh) s)) ->
    exists reply ai,
      read_response JSON_parse reply = Ok ai
      /\ d = mkCreateData rh jh (ai_missingSkills ai) (ai_learningSteps ai)
                          (ai_interviewQuestions ai).
Proof.
  open_resolve. crunch; intros d answer H; split_in;
    match goal with
    | H : CCreate _ _ = CCreate _ _ |- _ => injection H as <- _
    end;
    match goal with
    | H : match read_response JSON_parse ?x with _ => _ end = Ok ?a |- _ =>
        exists x, a; destruct (read_response JSON_parse x); [| discriminate H];
        injection H as ->; split; reflexivity
    end.
Qed.

(** X12.  What [analyzeGap] returns has 1 to 10 missing skills, exactly
    3 learning steps and exactly 3 interview questions, and so has every
    row the handler tries to insert. *)
Theorem inserted_analysis_is_well_shaped (body : Body) (s : State W) :
  (forall r j st a,
      fst (fst (run env (analyzeGap JSON_parse r j) st)) = Ok a -> well_shaped a)
  /\ forall d answer,
      In (CCreate d answer)
         (snd (run env (post_api_analyze JSON_parse ToNumber body) s)) ->
      (1 <= List.length (cd_missingSkills d) <= 10)%nat
      /\ List.length (cd_learningSteps d) = 3%nat
      /\ List.length (cd_interviewQuestions d) = 3%nat.
Proof.
  split.
  - intros r j st a. unfold analyzeGap. cbn.
    destruct (read_response JSON_parse _) as [x | e] eqn:E; [| discriminate].
    intros [= <-]. now apply (read_response_shape JSON_parse _ _ E).
  - intros d answer.
    destruct (run_cases JSON_parse ToNumber env body s)
      as [[resp E] | [(resp & x & E) | (r & j & _ & E)]];
      rewrite E; cbn [snd]; intros H; split_in.
    destruct (resolve_insert_data _ _ _ _ _ _ _ H) as (reply & ai & Hread & ->).
    apply (read_response_shape JSON_parse reply ai Hread).
Qed.

End Shape.

Module FenceFacts.

Import JsString Fence.

Lemma app_nil_l (s : string) : "" +:+ s = s.
Proof. reflexivity. Qed.

Lemma rev_onto_app (s acc : string) : rev_onto s acc = rev s +:+ acc.
Proof.
  unfold rev. revert acc. induction s as [| c s IH]; intros acc; [reflexivity |].
  cbn [rev_onto]. rewrite (IH (String c acc)), (IH (String c "")).
  now rewrite StringFacts.app_assoc.
Qed.

Lemma rev_cons (c : ascii) (s : string) : rev (String c s) = rev s +:+ String c "".
Proof. unfold rev at 1. cbn [rev_onto]. apply rev_onto_app. Qed.

Lemma rev_app (s t : string) : rev (s +:+ t) = rev t +:+ rev s.
Proof.
  induction s as [| c s IH].
  - rewrite app_nil_l. now rewrite StringFacts.app_nil_r.
  - rewrite StringFacts.app_cons, !rev_cons, IH.
    now rewrite StringFacts.app_assoc.
Qed.

Lemma rev_involutive (s : string) : rev (rev s) = s.
Proof.
  induction s as [| c s IH]; [reflexivity |].
  rewrite rev_cons, rev_app, IH. reflexivity.
Qed.

(** The closing fence with its line feed goes, the rest stays. *)
Lemma strip_close_fenced (d : string) :
  strip_close (d +:+ newline +:+ "```") = d.
Proof.
  unfold strip_close. rewrite !rev_app.
  change (rev "```") with "```". change (rev newline) with newline.
  rewrite StringFacts.app_assoc.
  change ("```" +:+ newline +:+ rev d)
    with (String "`" (String "`" (String "`" (newline +:+ rev d)))).
  cbn [startsWith Ascii.eqb Bool.eqb andb drop].
  unfold skip_newline.
  change (newline +:+ rev d) with (String (of_code 10) (rev d)).
  cbn [startsWith newline drop]. rewrite Ascii.eqb_refl. cbn [andb drop].
  apply rev_involutive.
Qed.

Lemma trim_fenced (tag d : string) : trim (fenced tag d) = fenced tag d.
Proof.
  unfold fenced, trim.
  change ("```" +:+ tag +:+ newline +:+ d +:+ newline +:+ "```")
    with (String "`" ("``" +:+ tag +:+ newline +:+ d +:+ newline +:+ "```")).
  cbn [trimStart]. change (is_white "`") with false. cbv iota.
  rewrite <- StringFacts.app_cons.
  change (String "`" "``") with "```".
  rewrite <- !StringFacts.app_assoc.
  rewrite trimEnd_ink by reflexivity.
  reflexivity.
Qed.

Lemma startsWith_fence_json (x : string) :
  startsWith "```json" x = true -> startsWith "```" x = true.
Proof.
  destruct x as [| a [| b [| c x]]]; cbn [startsWith]; try discriminate;
    rewrite ?andb_false_r; try discriminate.
  intros H. apply andb_true_iff in H as [H1 H].
  apply andb_true_iff in H as [H2 H]. apply andb_true_iff in H as [H3 _].
  now rewrite H1, H2, H3.
Qed.

End FenceFacts.

(** X14.  An answer of the model is read the same whether it comes
    bare, between json fences or between plain fences: the text handed to
    [JSON.parse] is the trimmed document in all three cases (bare,
    provided it does not itself start with a fence). *)
Theorem fences_are_removed (JSON_parse : string -> Result JsVal) (d : string) :
  Fence.clean (fenced "json" d) = JsString.trim d
  /\ Fence.clean (fenced "" d) = JsString.trim d
  /\ (JsString.startsWith "```" (JsString.trim d) = false ->
      Fence.clean d = JsString.trim d
      /\ read_response JSON_parse (Ok (Some (fenced "json" d)))
         = read_response JSON_parse (Ok (Some d))
      /\ read_response JSON_parse (Ok (Some (fenced "" d)))
         = read_response JSON_parse (Ok (Some d))).
Proof.
  assert (Hjson : Fence.clean (fenced "json" d) = JsString.trim d).
  { unfold Fence.clean. rewrite FenceFacts.trim_fenced. unfold fenced.
    change ("```" +:+ "json" +:+ Fence.newline +:+ d +:+ Fence.newline +:+ "```")
      with (String "`" (String "`" (String "`" (String "j" (String "s"
           (String "o" (String "n" (String (JsString.of_code 10)
           (d +:+ Fence.newline +:+ "```"))))))))).
    cbn [JsString.startsWith JsString.drop]. rewrite !Ascii.eqb_refl.
    cbn [andb]. unfold Fence.skip_newline at 1.
    cbn [JsString.startsWith Fence.newline JsString.drop].
    rewrite Ascii.eqb_refl. cbn [andb JsString.drop].
    now rewrite FenceFacts.strip_close_fenced. }
  assert (Hplain : Fence.clean (fenced "" d) = JsString.trim d).
  { unfold Fence.clean. rewrite FenceFacts.trim_fenced. unfold fenced.
    change ("```" +:+ "" +:+ Fence.newline +:+ d +:+ Fence.newline +:+ "```")
      with (String "`" (String "`" (String "`" (String (JsString.of_code 10)
           (d +:+ Fence.newline +:+ "```"))))).
    cbn [JsString.startsWith JsString.drop]. rewrite !Ascii.eqb_refl.
    change (("j" =? JsString.of_code 10)%char) with false.
    cbn [andb JsString.drop]. unfold Fence.skip_newline at 1.
    cbn [JsString.startsWith Fence.newline JsString.drop].
    rewrite Ascii.eqb_refl. cbn [andb JsString.drop].
    now rewrite FenceFacts.strip_close_fenced. }
  split; [exact Hjson |]. split; [exact Hplain |].
  intros Hbare.
  assert (Hd : Fence.clean d = JsString.trim d).
  { unfold Fence.clean. rewrite Hbare.
    destruct (JsString.startsWith "```json" (JsString.trim d)) eqn:E.
    - apply FenceFacts.startsWith_fence_json in E. congruence.
    - apply trim_idem. }
  split; [exact Hd |].
  cbn [read_response]. rewrite Hjson, Hplain, Hd. split; reflexivity.
Qed.

(** ** More on the handler in the world of one process and one store *)

Section StoreMore.

Variable JSON_parse : string -> Result JsVal.
Variable ToNumber : JsVal -> Result JsNumber.

Local Notation "'handler'" := (post_api_analyze JSON_parse ToNumber).

(** The computing path with the store in reach and no rival. *)
Lemma first_call_inserts (r j : string) (mem : gmap string MemEntry) (w : World)
      (reply : Result (option string)) (rest : list (Result (option string)))
      (ai : AiResult) :
  (50 <= String.length r)%nat -> (50 <= String.length j)%nat ->
  (forall entry, mem !! derived_key r j = Some entry ->
                 CACHE_TTL <= clock w - timestamp entry) ->
  outages w = [] -> rival w = None ->
  table w !! (sha256_hex (normalize r), sha256_hex (normalize j)) = None ->
  replies w = reply :: rest ->
  read_response JSON_parse reply = Ok ai ->
  exists s1 calls,
    let row := mkAnalysis (row_id_of w (rows_made w)) (iso_of w (clock w))
                          (sha256_hex (normalize r)) (sha256_hex (normalize j))
                          (ai_missingSkills ai) (ai_learningSteps ai)
                          (ai_interviewQuestions ai) None in
    run Store.env (handler (mkBody (JStr r) (JStr j))) (mkState mem w)
    = (Json200 (with_cached row false), s1, calls)
    /\ table (world s1)
       = <[(sha256_hex (normalize r), sha256_hex (normalize j)) := row]> (table w)
    /\ clock (world s1) = clock w
    /\ memoryCache s1
       = <[derived_key r j := mkMemEntry (with_cached row false) (clock w)]> mem.
Proof.
  intros Hr Hj Hmem Hup Hrival Hrow Hreply Hai.
  rewrite run_accepted by assumption.
  unfold resolve, lookup_then_compute, compute_and_store, analyzeGap, bindE.
  unfold derived_key in *. go.
  assert (Hstale : forall entry,
             mem !! cacheKey (sha256_hex (normalize r)) (sha256_hex (normalize j))
             = Some entry ->
             (clock w - timestamp entry <? CACHE_TTL) = false).
  { intros entry H. apply Z.ltb_ge. now apply Hmem. }
  destruct (mem !! cacheKey (sha256_hex (normalize r)) (sha256_hex (normalize j)))
    as [entry |] eqn:Hm; go;
    [rewrite (Hstale entry eq_refl); go |];
    unfold Store.findUnique, Store.down; go; rewrite Hup; go; rewrite Hrow; go;
    rewrite Hreply; go; rewrite Hai; go;
    unfold Store.create, Store.down, Store.commit_rival; go;
    rewrite Hup, Hrival; go; rewrite Hrow; go;
    do 2 eexists; repeat split; reflexivity.
Qed.

(** X15.  An analysis that was inserted outlives the [Map]: with the
    store in reach and no rival, the first request inserts its row and is
    answered with it, [cached: false].  The same request later, from any
    [Map] without a fresh entry for the key (a restarted process, or the
    old entry past its time to live), is answered from the table with
    [cached: true] and the same payload, without asking the model, and
    the row is written back into the [Map] with the time of this
    request. *)
Theorem persisted_row_survives_restart (r j : string)
        (mem : gmap string MemEntry) (w : World)
        (reply : Result (option string)) (rest : list (Result (option string)))
        (ai : AiResult) :
  (50 <= String.length r)%nat -> (50 <= String.length j)%nat ->
  (forall entry, mem !! derived_key r j = Some entry ->
                 CACHE_TTL <= clock w - timestamp entry) ->
  outages w = [] -> rival w = None ->
  table w !! (sha256_hex (normalize r), sha256_hex (normalize j)) = None ->
  replies w = reply :: rest ->
  read_response JSON_parse reply = Ok ai ->
  let body := mkBody (JStr r) (JStr j) in
  let first := run Store.env (handler body) (mkState mem w) in
  exists a,
    fst (fst first) = Json200 a
    /\ cached a = Some false
    /\ id a = row_id_of w (rows_made w)
    /\ missingSkills a = ai_missingSkills ai
    /\ forall mem2 dt answers,
        (forall entry, mem2 !! derived_key r j = Some entry ->
                       CACHE_TTL <= clock w + dt - timestamp entry) ->
        let second :=
          run Store.env (handler body)
              (mkState mem2 (world (Store.later dt [] answers (snd (fst first))))) in
        exists b t,
          fst (fst second) = Json200 b
          /\ cached b = Some true
          /\ same_payload a b
          /\ count is_generate (snd second) = 0%nat
          /\ count is_create (snd second) = 0%nat
          /\ memoryCache (snd (fst second)) !! derived_key r j
             = Some (mkMemEntry t (clock w + dt))
          /\ same_payload a t.
Proof.
  intros Hr Hj Hmem Hup Hrival Hrow Hreply Hai body first. subst body first.
  destruct (first_call_inserts r j mem w reply rest ai Hr Hj Hmem Hup Hrival
                               Hrow Hreply Hai)
    as (s1 & calls & Hrun & Htable & Hclock & _).
  cbv zeta in Hrun. rewrite Hrun. cbn [fst snd].
  eexists. split; [reflexivity |]. do 3 (split; [reflexivity |]).
  intros mem2 dt answers Hmem2. cbv zeta.
  rewrite run_accepted by assumption.
  unfold resolve, lookup_then_compute, bindE. unfold derived_key in *. go.
  assert (Hstale : forall entry,
             mem2 !! cacheKey (sha256_hex (normalize r)) (sha256_hex (normalize j))
             = Some entry ->
             (clock (world s1) + dt - timestamp entry <? CACHE_TTL) = false).
  { intros entry H. apply Z.ltb_ge. rewrite Hclock. now apply Hmem2. }
  destruct (mem2 !! cacheKey (sha256_hex (normalize r)) (sha256_hex (normalize j)))
    as [entry |] eqn:Hm; go;
    [rewrite (Hstale entry eq_refl); go |];
    unfold Store.findUnique, Store.down; go;
    rewrite Htable, lookup_insert_eq; go;
    do 2 eexists; rewrite lookup_insert_eq, Hclock;
    repeat split; reflexivity.
Qed.

End StoreMore.

(** ** The other routes, and the form *)

(** X16.  The [origin] function of the [cors] middleware allows every
    origin: absent, listed in [allowedOrigins] or not, the callback gets
    no error and [true]. *)
Theorem cors_allows_every_origin (header : option string) :
  Cors.origin header = (None, true)
  /\ Cors.includes Cors.allowedOrigins "https://example.org" = false
  /\ Cors.origin (Some "https://example.org") = (None, true).
Proof.
  split; [| split; reflexivity].
  unfold Cors.origin. destruct header as [o |]; [| reflexivity].
  destruct (String.eqb o ""); [reflexivity |].
  destruct (Cors.includes Cors.allowedOrigins o); reflexivity.
Qed.

Lemma on_parse_error_refuses (e : Pdf.Failure) :
  exists status error code, Pdf.on_parse_error e = Pdf.Refused status error code.
Proof.
  unfold Pdf.on_parse_error, Pdf.too_large.
  destruct (String.eqb _ _); [| destruct (Pdf.has_code e _)];
    do 3 eexists; reflexivity.
Qed.

(** X17.  A text that [POST /api/parse-pdf] returns is the trimmed text
    of the parser, is at least 10 characters long and has no white space
    at either end; the parser was made, read and destroyed, in that
    order. *)
Theorem parsed_text_is_trimmed (file : option Pdf.File) (p : Pdf.Parser)
        (text : string) (pages : nat) :
  fst (Pdf.parse_pdf file p) = Pdf.Text text pages ->
  (exists raw, Pdf.getText p = inr (raw, pages) /\ text = JsString.trim raw)
  /\ JsString.trim text = text
  /\ (10 <= String.length text)%nat
  /\ snd (Pdf.parse_pdf file p) = [Pdf.CNew; Pdf.CGetText; Pdf.CDestroy].
Proof.
  unfold Pdf.parse_pdf.
  destruct file as [f |]; [| discriminate].
  destruct (Pdf.construct p) as [e |].
  { cbn [fst]. destruct (on_parse_error_refuses e) as (? & ? & ? & ->).
    discriminate. }
  destruct (Pdf.getText p) as [e | [raw n]].
  { cbn [fst]. destruct (on_parse_error_refuses e) as (? & ? & ? & ->).
    discriminate. }
  destruct (Pdf.destroy p) as [e |].
  { cbn [fst]. destruct (on_parse_error_refuses e) as (? & ? & ? & ->).
    discriminate. }
  destruct (String.eqb (JsString.trim raw) "" || _) eqn:E; [discriminate |].
  cbn [fst snd]. intros [= <- <-].
  apply orb_false_iff in E as [_ E]. apply Nat.ltb_ge in E.
  split; [exists raw; split; reflexivity |].
  split; [apply trim_idem |]. split; [exact E | reflexivity].
Qed.

(** X18.  The parser is destroyed exactly when its text could be read:
    when the constructor or [getText] throws, [destroy] is not called,
    and the check for an empty text comes only after [destroy]. *)
Theorem parser_destroyed_iff_text_read (file : option Pdf.File) (p : Pdf.Parser) :
  In Pdf.CDestroy (snd (Pdf.parse_pdf file p))
  <-> (file <> None /\ Pdf.construct p = None
       /\ exists x, Pdf.getText p = inr x).
Proof.
  unfold Pdf.parse_pdf.
  destruct file as [f |].
  2: { cbn. split; [contradiction | intros [H _]; congruence]. }
  destruct (Pdf.construct p) as [e |].
  { cbn. split; [intuition discriminate | intros (_ & H & _); discriminate]. }
  destruct (Pdf.getText p) as [e | [raw n]].
  { cbn. split; [intuition discriminate | intros (_ & _ & x & H); discriminate]. }
  destruct (Pdf.destroy p); [| destruct (_ || _)]; cbn [snd In];
    (split; [intros _; repeat split; [discriminate | eexists; reflexivity]
            | intros _; tauto]).
Qed.

(** X19.  A file whose type is not exactly application/pdf is refused
    by [fileFilter], and the error the filter makes is the one the error
    middleware answers with 400 INVALID_FILE_TYPE, as the [catch] of the
    route would.  An error of multer is always answered by the
    middleware, with 413 FILE_TOO_LARGE when its code is LIMIT_FILE_SIZE
    and with 400 UPLOAD_ERROR otherwise; any other error is handed on
    unchanged. *)
Theorem upload_errors_are_classified (file : Pdf.File) (err : Pdf.Failure) :
  match Pdf.fileFilter file with
  | inr verdict => verdict = true /\ Pdf.mimetype file = "application/pdf"
  | inl e =>
      Pdf.mimetype file <> "application/pdf"
      /\ Pdf.error_middleware e
         = Pdf.Answered (Pdf.Refused 400 "Only PDF files are allowed"
                                     "INVALID_FILE_TYPE")
      /\ Pdf.on_parse_error e
         = Pdf.Refused 400 "Only PDF files are allowed" "INVALID_FILE_TYPE"
  end
  /\ (Pdf.multer_error err = true ->
      Pdf.error_middleware err
      = Pdf.Answered (if Pdf.has_code err "LIMIT_FILE_SIZE" then Pdf.too_large
                      else Pdf.Refused 400 (Pdf.failure_message err) "UPLOAD_ERROR"))
  /\ (Pdf.multer_error err = false ->
      Pdf.failure_message err <> Pdf.only_pdf ->
      Pdf.error_middleware err = Pdf.Next err).
Proof.
  split; [| split].
  - unfold Pdf.fileFilter.
    destruct (String.eqb (Pdf.mimetype file) "application/pdf") eqn:E.
    + apply String.eqb_eq in E. split; [reflexivity | exact E].
    + apply String.eqb_neq in E. split; [exact E | split; reflexivity].
  - intros H. unfold Pdf.error_middleware. rewrite H.
    destruct (Pdf.has_code err "LIMIT_FILE_SIZE"); reflexivity.
  - intros H Hm. unfold Pdf.error_middleware. rewrite H.
    apply String.eqb_neq in Hm. now rewrite Hm.
Qed.

Lemma code_of_on_error (e : JsError) : code_of (on_error e) <> "VALIDATION_ERROR".
Proof.
  unfold on_error.
  destruct (JsString.includes "malformed" (message e));
    [| destruct (JsString.includes "AI Service Failed" (message e))];
    discriminate.
Qed.

Section Callers.

Variable JSON_parse : string -> Result JsVal.
Variable ToNumber : JsVal -> Result JsNumber.
Context {W : Type} (env : Env W).

Local Notation "'handler'" := (post_api_analyze JSON_parse ToNumber).

(** X20.  The two routes do not ask for the same length.  A text that
    [POST /api/parse-pdf] returned and that has fewer than 50 characters
    (it has at least 10) is turned down by [POST /api/analyze] with 400
    VALIDATION_ERROR before any call is made, whatever the job
    description; one of 50 characters or more passes both checks, and
    [trim] leaves it as it is. *)
Theorem parsed_text_may_be_too_short (file : option Pdf.File) (p : Pdf.Parser)
        (text : string) (pages : nat) (job : JsVal) (s : State W) :
  fst (Pdf.parse_pdf file p) = Pdf.Text text pages ->
  ((String.length text < 50)%nat ->
   let out := run env (handler (mkBody (JStr text) job)) s in
   status_of (fst (fst out)) = 400
   /\ code_of (fst (fst out)) = "VALIDATION_ERROR"
   /\ snd out = [])
  /\ ((50 <= String.length text)%nat ->
      passes ToNumber (JStr text) /\ normalize text = JsString.toLowerCase text).
Proof.
  intros H.
  assert (Hlen : (10 <= String.length text)%nat /\ JsString.trim text = text).
  { revert H. unfold Pdf.parse_pdf.
    destruct file as [f |]; [| discriminate].
    destruct (Pdf.construct p) as [e |];
      [cbn [fst]; destruct (on_parse_error_refuses e) as (? & ? & ? & ->);
       discriminate |].
    destruct (Pdf.getText p) as [e | [raw n]];
      [cbn [fst]; destruct (on_parse_error_refuses e) as (? & ? & ? & ->);
       discriminate |].
    destruct (Pdf.destroy p) as [e |];
      [cbn [fst]; destruct (on_parse_error_refuses e) as (? & ? & ? & ->);
       discriminate |].
    destruct (String.eqb (JsString.trim raw) "" || _) eqn:E; [discriminate |].
    cbn [fst]. intros [= <- _].
    apply orb_false_iff in E as [_ E]. apply Nat.ltb_ge in E.
    split; [exact E | apply trim_idem]. }
  destruct Hlen as [Hten Htrim]. split.
  - intros Hshort. cbv zeta.
    assert (Ht : Js.truthy (JStr text) = true) by (apply truthy_text; lia).
    destruct (Js.truthy job) eqn:Hj.
    + rewrite (rejected_when_short JSON_parse ToNumber env); [now cbn | exact Ht | exact Hj |].
      left. cbn [resumeText]. rewrite less_than_50_length. f_equal.
      now apply Nat.ltb_lt.
    + rewrite (rejected_when_absent JSON_parse ToNumber env); [now cbn |].
      right. exact Hj.
  - intros Hlong. split; [now apply passes_text |].
    unfold normalize. now rewrite Htrim.
Qed.

(** X21.  The form and the route agree on what a valid pair of texts
    is: [isValid], which enables the button, holds exactly when the
    route does not answer VALIDATION_ERROR to the two texts. *)
Theorem form_and_route_agree (resume jobDesc : string) (s : State W) :
  Client.isValid resume jobDesc = true
  <-> code_of (fst (fst (run env (handler (mkBody (JStr resume) (JStr jobDesc))) s)))
      <> "VALIDATION_ERROR".
Proof.
  unfold Client.isValid. split.
  - intros H. apply andb_true_iff in H as [Hr Hj].
    apply Nat.leb_le in Hr, Hj.
    rewrite run_accepted by assumption. cbn [fst].
    destruct (fst (fst (run env (resolve JSON_parse resume jobDesc _ _) s)))
      as [resp | e] eqn:E; cbn [unwrap]; [| apply code_of_on_error].
    destruct (resolve_outcome JSON_parse env resume jobDesc
                (sha256_hex (normalize resume)) (sha256_hex (normalize jobDesc)) s)
      as [[a Ha] | [e He]]; rewrite E in *; [| discriminate].
    injection Ha as ->. discriminate.
  - intros H.
    destruct ((50 <=? String.length resume)%nat
              && (50 <=? String.length jobDesc)%nat) eqn:E; [reflexivity |].
    exfalso. apply H. clear H. apply andb_false_iff in E.
    destruct (Js.truthy (JStr resume)) eqn:Tr.
    2: { rewrite (rejected_when_absent JSON_parse ToNumber env);
           [reflexivity | left; exact Tr]. }
    destruct (Js.truthy (JStr jobDesc)) eqn:Tj.
    2: { rewrite (rejected_when_absent JSON_parse ToNumber env);
           [reflexivity | right; exact Tj]. }
    rewrite (rejected_when_short JSON_parse ToNumber env);
      [reflexivity | exact Tr | exact Tj |].
    cbn [resumeText jobDescText]. rewrite !less_than_50_length.
    destruct (String.length resume <? 50)%nat eqn:Lr; [now left |].
    right. split; [reflexivity |]. f_equal.
    apply Nat.ltb_ge in Lr. destruct E as [E | E]; apply Nat.leb_gt in E;
      [lia | now apply Nat.ltb_lt].
Qed.

(** X22.  Whatever the route answers, the form shows it as it is: the
    analysis of a 200 response, and for an error response the message
    the route sent; the two messages the form has of its own are for
    answers the route does not give. *)
Theorem form_shows_what_the_route_sent (body : Body) (s : State W) :
  Client.handleSubmit (fst (fst (run env (handler body) s)))
  = match fst (fst (run env (handler body) s)) with
    | Json200 data => Client.Shown data
    | JsonError _ error _ => Client.Failed error
    end.
Proof.
  destruct (run_in_taxonomy JSON_parse ToNumber env body s)
    as [[a ->] | (e & He & [-> | [-> | [-> | ->]]])];
    try reflexivity; cbn; destruct e; (contradiction || reflexivity).
Qed.

End Callers.

(** ** The further statements on the fixtures *)

Lemma demo_generate_call (down : list bool) :
  In (CGenerateContent (JsString.slice0 8000 Demo.resume)
                       (JsString.slice0 8000 Demo.job) Demo.reply)
     (snd (run Store.env (Demo.handler Demo.body)
               (Demo.start [hd false down] [Demo.reply] None))).
Proof. destruct down as [| [] ?]; vm_compute; do 4 right; left; reflexivity. Qed.

(** X2 on sixty blanks. *)
Lemma blank_texts_share_a_key_witness :
  every JsString.is_white Fixture.blank60 = true
  /\ derived_key Fixture.blank60 Demo.job = derived_key "" Demo.job
  /\ sha256_hex (normalize Fixture.blank60)
     = "e3b0c44298fc1c149afbf4c8996fb92427ae41e4649b934ca495991b7852b855".
Proof.
  assert (Hb : every JsString.is_white Fixture.blank60 = true) by reflexivity.
  assert (Hl : (50 <= String.length Fixture.blank60)%nat) by (vm_compute; lia).
  destruct (blank_texts_share_a_key Demo.JSON_parse Demo.ToNumber Store.env
              Fixture.blank60 Demo.job (Demo.start [] [Demo.reply] None)
              Hl (proj2 demo_lengths) Hb) as (_ & Hkey & _).
  split; [exact Hb |]. split; [exact Hkey |]. vm_compute. reflexivity.
Defined.

(** X3 on a table that holds the row. *)
Lemma persistent_hit_writes_back_witness :
  let out := run Store.env (Demo.handler Demo.body) Fixture.stored in
  In (CFindUnique Demo.resume_hash Demo.job_hash (Ok (Some Demo.own_row))) (snd out)
  /\ fst (fst out) = Json200 (with_cached Demo.own_row true)
  /\ count is_generate (snd out) = 0%nat.
Proof.
  cbv zeta.
  assert (H : In (CFindUnique Demo.resume_hash Demo.job_hash
                              (Ok (Some Demo.own_row)))
                 (snd (run Store.env (Demo.handler Demo.body) Fixture.stored))).
  { vm_compute. do 3 right. left. reflexivity. }
  destruct (persistent_hit_writes_back Demo.JSON_parse Demo.ToNumber Store.env
              Demo.resume Demo.job Fixture.stored
              (proj1 demo_lengths) (proj2 demo_lengths) _ _ _ H)
    as (Hout & _ & Hg & _).
  split; [exact H |]. split; [exact Hout | exact Hg].
Defined.

(** X4 on a first request with the store in reach. *)
Lemma successful_insert_is_served_witness :
  let out := run Store.env (Demo.handler Demo.body)
                 (Demo.start [] [Demo.reply] None) in
  In (CCreate Demo.own_data (Ok Demo.own_row)) (snd out)
  /\ fst (fst out) = Json200 (with_cached Demo.own_row false)
  /\ id (with_cached Demo.own_row false) <> Demo.uuid 0.
Proof.
  cbv zeta.
  assert (H : In (CCreate Demo.own_data (Ok Demo.own_row))
                 (snd (run Store.env (Demo.handler Demo.body)
                           (Demo.start [] [Demo.reply] None)))).
  { vm_compute. do 7 right. left. reflexivity. }
  destruct (successful_insert_is_served Demo.JSON_parse Demo.ToNumber Store.env
              Demo.resume Demo.job (Demo.start [] [Demo.reply] None)
              (proj1 demo_lengths) (proj2 demo_lengths) _ _ H)
    as (Hout & _).
  split; [exact H |]. split; [exact Hout | discriminate].
Defined.

(** X7 on a first request. *)
Lemma model_asked_after_both_tiers_witness :
  let out := run Store.env (Demo.handler Demo.body)
                 (Demo.start [false] [Demo.reply] None) in
  exists answer rest,
    (answer = Ok None \/ exists e, answer = Throw e)
    /\ snd out
       = CSha256Hex (normalize Demo.resume) Demo.resume_hash
         :: CSha256Hex (normalize Demo.job) Demo.job_hash
         :: CMemoryGet (derived_key Demo.resume Demo.job) None
         :: CFindUnique Demo.resume_hash Demo.job_hash answer
         :: CGenerateContent (JsString.slice0 8000 Demo.resume)
                             (JsString.slice0 8000 Demo.job) Demo.reply
         :: rest.
Proof.
  cbv zeta.
  destruct (model_asked_after_both_tiers Demo.JSON_parse Demo.ToNumber Store.env
              Demo.resume Demo.job (Demo.start [false] [Demo.reply] None)
              (proj1 demo_lengths) (proj2 demo_lengths) _ _ _
              (demo_generate_call [false]))
    as (answer & rest & Ha & [E | (entry & t & _ & E)]).
  - exists answer, rest. split; [exact Ha | exact E].
  - exfalso. apply (f_equal (fun l => nth_error l 2)) in E.
    vm_compute in E. discriminate E.
Defined.

(** X8 on a model that cannot be reached. *)
Lemma malformed_word_decides_witness :
  let out := run Store.env (Demo.handler Demo.body)
                 (Demo.start [] [Throw Fixture.rejected] None) in
  err_class Fixture.rejected <> ZodErrorC
  /\ fst (fst out) = JsonError 422 "AI returned invalid data. Please try again."
                               "AI_VALIDATION_ERROR".
Proof.
  cbv zeta. split; [discriminate |].
  apply (malformed_word_decides Demo.JSON_parse Demo.ToNumber Store.env
           Demo.resume Demo.job (Demo.start [] [Throw Fixture.rejected] None)
           (proj1 demo_lengths) (proj2 demo_lengths)
           (JsString.slice0 8000 Demo.resume) (JsString.slice0 8000 Demo.job)
           (Throw Fixture.rejected) Fixture.rejected).
  - vm_compute. do 4 right. left. reflexivity.
  - reflexivity.
  - vm_compute. reflexivity.
Defined.

(** X9 with the store out of reach. *)
Lemma store_failures_are_absorbed_witness :
  let out := run Store.env (Demo.handler Demo.body)
                 (Demo.start [true] [Demo.reply] None) in
  exists x,
    fst (fst out) = Json200 x
    /\ cached x = Some false
    /\ count is_memory_set (snd out) = 1%nat.
Proof.
  cbv zeta.
  destruct (store_failures_are_absorbed Demo.JSON_parse Demo.ToNumber Store.env
              Demo.resume Demo.job (Demo.start [true] [Demo.reply] None)
              (proj1 demo_lengths) (proj2 demo_lengths) _ _ _ Demo.analysis
              (demo_generate_call [true]) demo_reply_good)
    as (x & H1 & H2 & H3 & _).
  exists x. repeat split; assumption.
Defined.

(** X10 on a first request. *)
Lemma calls_use_own_key_witness :
  Forall (uses_only Demo.resume_hash Demo.job_hash)
         (snd (run Store.env (Demo.handler Demo.body)
                   (Demo.start [] [Demo.reply] None))).
Proof.
  exact (calls_use_own_key Demo.JSON_parse Demo.ToNumber Store.env
           Demo.resume Demo.job (Demo.start [] [Demo.reply] None)
           (proj1 demo_lengths) (proj2 demo_lengths)).
Defined.

(** X11 on a first request: both texts are short, and passed whole. *)
Lemma prompt_takes_first_8000_witness :
  JsString.slice0 8000 Demo.resume = Demo.resume
  /\ JsString.slice0 8000 Demo.job = Demo.job.
Proof.
  destruct (prompt_takes_first_8000 Demo.JSON_parse Demo.ToNumber Store.env
              Demo.resume Demo.job (Demo.start [false] [Demo.reply] None)
              (proj1 demo_lengths) (proj2 demo_lengths) _ _ _
              (demo_generate_call [false]))
    as (_ & _ & _ & _ & Hr & Hj).
  split; [apply Hr | apply Hj]; vm_compute; discriminate.
Defined.

(** X15 on a first request and a restart one day and a bit later. *)
Lemma persisted_row_survives_restart_witness :
  let first := run Store.env (Demo.handler Demo.body)
                   (Demo.start [] [Demo.reply] None) in
  exists a,
    fst (fst first) = Json200 a
    /\ cached a = Some false
    /\ forall dt answers,
        let second :=
          run Store.env (Demo.handler Demo.body)
              (mkState ∅ (world (Store.later dt [] answers (snd (fst first))))) in
        exists b,
          fst (fst second) = Json200 b
          /\ cached b = Some true
          /\ same_payload a b
          /\ count is_generate (snd second) = 0%nat.
Proof.
  cbv zeta.
  destruct (persisted_row_survives_restart Demo.JSON_parse Demo.ToNumber
              Demo.resume Demo.job ∅ (Demo.world [] [Demo.reply] None)
              Demo.reply [] Demo.analysis
              (proj1 demo_lengths) (proj2 demo_lengths) (demo_cold _)
              eq_refl eq_refl (lookup_empty _) eq_refl demo_reply_good)
    as (a & H1 & H2 & _ & _ & Hnext).
  exists a. split; [exact H1 |]. split; [exact H2 |].
  intros dt answers.
  destruct (Hnext ∅ dt answers) as (b & t & Hb1 & Hb2 & Hb3 & Hb4 & _).
  { intros entry H. rewrite lookup_empty in H. discriminate H. }
  exists b. repeat split; try assumption; apply Hb3.
Defined.

(** X17 on a page with a short line. *)
Lemma parsed_text_is_trimmed_witness :
  fst (Pdf.parse_pdf (Some Fixture.pdf) Fixture.parser)
  = Pdf.Text "Riswan, web developer" 1
  /\ JsString.trim "Riswan, web developer" = "Riswan, web developer"
  /\ snd (Pdf.parse_pdf (Some Fixture.pdf) Fixture.parser)
     = [Pdf.CNew; Pdf.CGetText; Pdf.CDestroy].
Proof.
  assert (H : fst (Pdf.parse_pdf (Some Fixture.pdf) Fixture.parser)
              = Pdf.Text "Riswan, web developer" 1) by reflexivity.
  destruct (parsed_text_is_trimmed (Some Fixture.pdf) Fixture.parser _ _ H)
    as (_ & Ht & _ & Hc).
  split; [exact H |]. split; [exact Ht | exact Hc].
Defined.

(** X20 on that page: the text passes one route and not the other. *)
Lemma parsed_text_may_be_too_short_witness :
  let s := Demo.start [] [Demo.reply] None in
  let out := run Store.env
                 (Demo.handler (mkBody (JStr "Riswan, web developer") (JStr Demo.job)))
                 s in
  fst (Pdf.parse_pdf (Some Fixture.pdf) Fixture.parser)
  = Pdf.Text "Riswan, web developer" 1
  /\ status_of (fst (fst out)) = 400
  /\ code_of (fst (fst out)) = "VALIDATION_ERROR"
  /\ snd out = [].
Proof.
  cbv zeta.
  assert (H : fst (Pdf.parse_pdf (Some Fixture.pdf) Fixture.parser)
              = Pdf.Text "Riswan, web developer" 1) by reflexivity.
  destruct (parsed_text_may_be_too_short Demo.JSON_parse Demo.ToNumber Store.env
              (Some Fixture.pdf) Fixture.parser _ _ (JStr Demo.job)
              (Demo.start [] [Demo.reply] None) H) as [Hshort _].
  split; [exact H |]. apply Hshort. vm_compute. lia.
Defined.
